(** * The ENVI header writer of the Stereo Pipeline ([graveyard/DEM.h])

    A shallow embedding of [vw_to_envi_channel_type] and [write_ENVI_header],
    together with the parts of the C and Vision Workbench libraries that the
    function calls: [fopen]/[fprintf]/[fclose] on a small file-system state,
    [printf]'s [%f], [%d] and [%s] conversions, [std::min_element] and
    [std::max_element], and the read-only interface of an image view and of a
    [GeoReference]. *)

From Stdlib Require Import ZArith String Ascii List Floats DecimalString Lia.
From stdpp Require Import gmap strings list.

Open Scope Z_scope.

(** ** Channel types and the ENVI data-type code *)

(** The channel types of the Vision Workbench ([vw/Core/FundamentalTypes.h]);
    [other_channel] stands for any further class the template may be
    instantiated with. *)
Inductive ChannelT : Set :=
  | uint8 | int16 | int32 | float32 | float64 | uint16 | uint32
  | int8 | int64 | uint64
  | other_channel (class_name : string).

#[global] Instance ChannelT_eq_dec : EqDecision ChannelT.
Proof. solve_decision. Defined.

(** [vw_to_envi_channel_type<ChannelT>::value()].  The primary template is
    the empty struct: it has no member [value], which is [None] here; each
    explicit specialisation returns its constant. *)
Definition vw_to_envi_channel_type (c : ChannelT) : option Z :=
  match c with
  | uint8 => Some 1
  | int16 => Some 2
  | int32 => Some 3
  | float32 => Some 4
  | float64 => Some 5
  | uint16 => Some 12
  | uint32 => Some 13
  | _ => None
  end.

(** The channel kinds of the specification's table, in the table's order. *)
Definition supported_channels : list ChannelT :=
  [uint8; int16; int32; float32; float64; uint16; uint32].

(** ** Text produced by [printf] *)

(** The line feed that the C compiler puts for the escape [\n]. *)
Definition LF : string := String "010"%char EmptyString.

(** Translation of the escapes of a C string literal; the literals of
    [DEM.h] use only [\n]. *)
Fixpoint C (literal : string) : string :=
  match literal with
  | EmptyString => EmptyString
  | String "\"%char (String "n"%char rest) => String "010"%char (C rest)
  | String c rest => String c (C rest)
  end.

(** [s.c_str()] as a C function reads it: the characters before the first
    NUL. *)
Fixpoint c_str (s : string) : string :=
  match s with
  | EmptyString => EmptyString
  | String c rest => if Ascii.eqb c "000"%char then EmptyString else String c (c_str rest)
  end.

(** [%d]: a signed decimal integer. *)
Definition printf_d (n : Z) : string := NilZero.string_of_int (Z.to_int n).

(** The six digits of [n < 10^6], zero padded on the left. *)
Definition six_digits (n : Z) : string :=
  match printf_d (1000000 + n) with
  | String _ digits => digits
  | EmptyString => EmptyString
  end.

(** Rounding of the rational [num / den] to the nearest integer, ties to
    even: the rounding of [printf] in the default rounding mode. *)
Definition round_half_even (num den : Z) : Z :=
  let q := num / den in
  let r := num mod den in
  match 2 * r ?= den with
  | Lt => q
  | Gt => q + 1
  | Eq => if Z.even q then q else q + 1
  end.

(** The magnitude [m * 2^e] in millionths, rounded. *)
Definition millionths (m : positive) (e : Z) : Z :=
  if 0 <=? e then Z.pos m * 2 ^ e * 1000000
  else round_half_even (Z.pos m * 1000000) (2 ^ (- e)).

Definition sign_text (s : bool) : string := if s then "-" else "".

(** [%f] on a binary64 value: fixed notation with six fractional digits,
    computed from the exact value.  Rocq's floats have a single NaN, so the
    sign that [printf] may show in front of [nan] is not modelled: the C
    library writes [-nan] for a NaN whose sign bit is set, and no property
    below depends on the text of a NaN. *)
Definition printf_f_SF (v : spec_float) : string :=
  match v with
  | S754_zero s => sign_text s +:+ "0.000000"
  | S754_infinity s => sign_text s +:+ "inf"
  | S754_nan => "nan"
  | S754_finite s m e =>
      let n := millionths m e in
      sign_text s +:+ printf_d (n / 1000000) +:+ "." +:+ six_digits (n mod 1000000)
  end.

Definition printf_f (v : float) : string := printf_f_SF (Prim2SF v).

(** The arguments of a [printf] call after the format. *)
Inductive Arg : Set :=
  | ArgDouble (v : float)
  | ArgInt (n : Z)
  | ArgString (s : string).

(** The text a format produces with its arguments; [None] when a directive
    has no argument of its kind (undefined in C).  The directives are the
    ones [DEM.h] uses. *)
Fixpoint vsprintf (format : string) (args : list Arg) : option string :=
  match format with
  | EmptyString => Some EmptyString
  | String "%"%char (String d rest) =>
      match d, args with
      | "f"%char, ArgDouble v :: args' =>
          String.append (printf_f v) <$> vsprintf rest args'
      | "d"%char, ArgInt n :: args' =>
          String.append (printf_d n) <$> vsprintf rest args'
      | "s"%char, ArgString s :: args' =>
          String.append s <$> vsprintf rest args'
      | "%"%char, _ => String "%"%char <$> vsprintf rest args
      | _, _ => None
      end
  | String c rest => String c <$> vsprintf rest args
  end.

(** ** The file system and the C stream functions *)

Inductive Endianness : Set := LittleEndian | BigEndian.

(** What the function can observe or change outside its arguments: the files
    by path, whether a path can be opened for writing (permissions, the
    directory exists), the streams that are open, and the byte order of the
    host. *)
Record World : Type := mkWorld {
  files : gmap string string;
  can_open : string → bool;
  open_streams : list string;
  host : Endianness
}.

(** The ways in which the C++ standard leaves an execution undefined that
    this code can reach. *)
Inductive Undefined : Set :=
  | NullStream      (* a stream function called on a null [FILE*] *)
  | PastTheEnd      (* an iterator equal to [end()] dereferenced *)
  | BadFormat.      (* a [printf] directive without a matching argument *)

(** The outcome of a call: it returns, it throws, its behaviour is
    undefined from some state on, or the program that contains the call is
    ill-formed and there is no execution at all. *)
Inductive Outcome (A : Type) : Type :=
  | Returned (a : A) (w : World)
  | Thrown (what : string) (w : World)
  | UndefinedBehaviour (u : Undefined) (w : World)
  | IllFormed.
Arguments Returned {A} a w.
Arguments Thrown {A} what w.
Arguments UndefinedBehaviour {A} u w.
Arguments IllFormed {A}.

Definition M (A : Type) : Type := World → Outcome A.

#[global] Instance M_ret : MRet M := λ A a w, Returned a w.
#[global] Instance M_bind : MBind M := λ A B k m w,
  match m w with
  | Returned a w' => k a w'
  | Thrown what w' => Thrown what w'
  | UndefinedBehaviour u w' => UndefinedBehaviour u w'
  | IllFormed => IllFormed
  end.

#[global] Instance M_fmap : FMap M := λ A B f m, a ← m; mret (f a).

(** A [FILE*]: null, or the stream open on a path. *)
Definition FILE : Type := option string.

(** The contents of the file at a path, empty when there is none. *)
Definition contents (w : World) (path : string) : string :=
  default EmptyString (files w !! path).

(** [fopen(path, "w")]: null when the path cannot be opened; otherwise the
    file is created or truncated to length zero and a stream is opened on
    it.  Only the mode that [DEM.h] uses is modelled: any other mode is
    answered with null.  A file is identified by the path string that is
    given: the resolution of a path (relative paths, links) is not
    modelled. *)
Definition fopen (path mode : string) : M FILE := λ w,
  if bool_decide (mode = "w") && can_open w path
  then Returned (Some path)
         (mkWorld (<[path := EmptyString]> (files w)) (can_open w)
                  (path :: open_streams w) (host w))
  else Returned None w.

(** [fprintf(stream, format, args...)]; [format] is written as in the C
    source, escapes included.  Buffering is not modelled: the text is in the
    file when the call returns. *)
Definition fprintf (stream : FILE) (format : string) (args : list Arg) : M unit := λ w,
  match stream with
  | None => UndefinedBehaviour NullStream w
  | Some path =>
      match vsprintf (C format) args with
      | None => UndefinedBehaviour BadFormat w
      | Some text =>
          Returned ()
            (mkWorld (<[path := contents w path +:+ text]> (files w)) (can_open w)
                     (open_streams w) (host w))
      end
  end.

(** The open streams without the one most recently opened on [path]. *)
Fixpoint close_stream (path : string) (streams : list string) : list string :=
  match streams with
  | [] => []
  | p :: streams' =>
      if bool_decide (p = path) then streams' else p :: close_stream path streams'
  end.

(** [fclose(stream)]. *)
Definition fclose (stream : FILE) : M unit := λ w,
  match stream with
  | None => UndefinedBehaviour NullStream w
  | Some path =>
      Returned ()
        (mkWorld (files w) (can_open w) (close_stream path (open_streams w)) (host w))
  end.

(** ** The object representation of a [short] *)

(** [char(n)]: the value of [n] in a signed 8-bit [char]. *)
Definition to_char (n : Z) : Z := (n + 128) mod 256 - 128.

(** The two bytes of a 16-bit [short] in memory, seen as [char bytes[2]]
    through the union. *)
Definition short_bytes (order : Endianness) (number : Z) : list Z :=
  let low := to_char (number mod 256) in
  let high := to_char ((number / 256) mod 256) in
  match order with
  | LittleEndian => [low; high]
  | BigEndian => [high; low]
  end.

(** The layout of objects is the host's. *)
Definition host_order : M Endianness := λ w, Returned (host w) w.

(** ** Images, iterators and the standard algorithms *)

(** What the function needs of [ViewT::pixel_type]: its channel type
    ([vw::PixelChannelType<pixel_type>::type]), the [operator<] that the
    standard algorithms compare with, and the conversion to [double]. *)
Class PixelType (pixel_type : Type) : Type := {
  channel_type : ChannelT;
  pixel_lt : pixel_type → pixel_type → bool;
  pixel_to_double : pixel_type → float
}.

(** An image view: its dimensions and its pixel accessor
    [image(col, row, plane)]. *)
Record ImageView (pixel_type : Type) : Type := mkImageView {
  cols : nat;
  rows : nat;
  planes : nat;
  pixel : nat → nat → nat → pixel_type
}.
Arguments mkImageView {pixel_type} cols rows planes pixel.
Arguments cols {pixel_type} i.
Arguments rows {pixel_type} i.
Arguments planes {pixel_type} i.
Arguments pixel {pixel_type} i col row plane.

(** The range [image.begin(), image.end()): every pixel of the view, the
    column index running fastest, then the row, then the plane.  An iterator
    is its offset from [begin()]. *)
Definition pixels {pixel_type} (image : ImageView pixel_type) : list pixel_type :=
  p ← seq 0 (planes image); r ← seq 0 (rows image); c ← seq 0 (cols image);
  [pixel image c r p].

Section algorithms.
Context {T : Type} (lt : T → T → bool).

(** The loop of [std::min_element]: [first] advances over [rest], [result]
    is the iterator of the smallest element so far, [smallest] its value. *)
Fixpoint min_element_loop (rest : list T) (first result : nat) (smallest : T) : nat :=
  match rest with
  | [] => result
  | v :: rest' =>
      if lt v smallest then min_element_loop rest' (S first) first v
      else min_element_loop rest' (S first) result smallest
  end.

(** [std::min_element(first, last)] on a range: for an empty range it
    returns [last]. *)
Definition min_element (range : list T) : nat :=
  match range with
  | [] => 0
  | v :: rest => min_element_loop rest 1 0 v
  end.

Fixpoint max_element_loop (rest : list T) (first result : nat) (largest : T) : nat :=
  match rest with
  | [] => result
  | v :: rest' =>
      if lt largest v then max_element_loop rest' (S first) first v
      else max_element_loop rest' (S first) result largest
  end.

(** [std::max_element(first, last)]. *)
Definition max_element (range : list T) : nat :=
  match range with
  | [] => 0
  | v :: rest => max_element_loop rest 1 0 v
  end.
End algorithms.

(** [*it] for an iterator of a range. *)
Definition deref {T} (range : list T) (it : nat) : M T := λ w,
  match range !! it with
  | Some v => Returned v w
  | None => UndefinedBehaviour PastTheEnd w
  end.

(** ** The geospatial reference *)

Module Vector2.
Record t : Set := mk { x : float; y : float }.
End Vector2.

Module BBox2.
Record t : Set := mk { min : Vector2.t; max : Vector2.t }.
End BBox2.

Module Datum.
Record t : Set := mk { name : string }.
End Datum.

(** The part of [vw::cartography::GeoReference] that the function reads:
    [transform()(i,j)], [datum()], [bounding_box(width, height)] and the text
    that [operator<<] writes. *)
Module GeoReference.
Record t : Type := mk {
  transform : nat → nat → float;
  datum : Datum.t;
  bounding_box : nat → nat → BBox2.t;
  to_stream : string
}.
End GeoReference.

(** ** [write_ENVI_header] *)

Section write_ENVI_header.
Context {pixel_type : Type} {PT : PixelType pixel_type}.

(** The statements of the function, for the data-type code [value] that
    [vw_to_envi_channel_type<channel_type>::value()] returns. *)
Definition write_ENVI_header_body (value : Z)
    (header_name : string) (default_z_value : float)
    (image : ImageView pixel_type) (georef : GeoReference.t) : M unit :=
  headerFile ← fopen (c_str header_name) "w";

  fprintf headerFile "ENVI\n" [];;
  fprintf headerFile "description = { \n" [];;
  fprintf headerFile "   -- Digital Elevation Map generated by the NASA Ames Stereo Pipeline --\n" [];;
  fprintf headerFile "   \n" [];;
  fprintf headerFile "   The Ames Stereo Pipeline generates 3D coordinates in a planetocentric \n" [];;
  fprintf headerFile "   coordinate system with the origin at the planetary center of mass.\n" [];;
  fprintf headerFile "   Elevations are referenced relative to standards set by the International\n" [];;
  fprintf headerFile "   Astronomical Union (IAU)\n" [];;
  fprintf headerFile "   \n" [];;
  fprintf headerFile "   This DEM was generated using an area based correlation technique followed by several \n" [];;
  fprintf headerFile "   several stages of outlier detection.  This produced a map of the disparities for each \n" [];;
  fprintf headerFile "   pixel which was then interpolated (hole filled) using a 2D non-uniform b-spline fitting\n" [];;
  fprintf headerFile "   process.  You should find a interpolation map file included in this archive that shows\n" [];;
  fprintf headerFile "   which pixels represent interpolated data.\n" [];;
  fprintf headerFile "   \n" [];;
  fprintf headerFile "   Projection Information:\n" [];;

  let temp := GeoReference.to_stream georef in
  fprintf headerFile "   %s\n" [ArgString (c_str temp)];;

  let bounding_box := GeoReference.bounding_box georef (cols image) (rows image) in
  min_value ← pixel_to_double <$> deref (pixels image) (min_element pixel_lt (pixels image));
  max_value ← pixel_to_double <$> deref (pixels image) (max_element pixel_lt (pixels image));

  fprintf headerFile "   \n" [];;
  fprintf headerFile "   Bounding box:\n" [];;
  fprintf headerFile "     Minimum X (left)    = %f\n" [ArgDouble (Vector2.x (BBox2.min bounding_box))];;
  fprintf headerFile "     Minimum Y (top)     = %f\n" [ArgDouble (Vector2.y (BBox2.min bounding_box))];;
  fprintf headerFile "     Maximum X (right)   = %f\n" [ArgDouble (Vector2.x (BBox2.max bounding_box))];;
  fprintf headerFile "     Maximum Y (bottom)  = %f\n" [ArgDouble (Vector2.y (BBox2.max bounding_box))];;
  fprintf headerFile "     Minimum Z           = %f\n" [ArgDouble min_value];;
  fprintf headerFile "     Maximum Z           = %f\n" [ArgDouble max_value];;
  fprintf headerFile "     Default Z           = %f\n" [ArgDouble default_z_value];;
  fprintf headerFile "}\n" [];;
  fprintf headerFile "samples = %d\n" [ArgInt (Z.of_nat (cols image))];;
  fprintf headerFile "lines   = %d\n" [ArgInt (Z.of_nat (rows image))];;
  fprintf headerFile "bands   = %d\n" [ArgInt (Z.of_nat (planes image))];;
  fprintf headerFile "header offset = 0\n" [];;

  let x_pixel_scaling := GeoReference.transform georef 0%nat 0%nat in
  let y_pixel_scaling := GeoReference.transform georef 1%nat 1%nat in
  fprintf headerFile "map info = { Geographic Lat/Lon, 1.5, 1.5, %f, %f, %f, %f, %s, units=Degrees}\n"
    [ArgDouble (Vector2.x (BBox2.min bounding_box)); ArgDouble (Vector2.y (BBox2.max bounding_box));
     ArgDouble x_pixel_scaling; ArgDouble y_pixel_scaling;
     ArgString (c_str (Datum.name (GeoReference.datum georef)))];;
  fprintf headerFile "file type = ENVI Standard\n" [];;

  fprintf headerFile "data type = %d\n" [ArgInt value];;

  fprintf headerFile "interleave = bsq\n" [];;
  order ← host_order;
  let short_endian_check_number := 1 in
  let short_endian_check_bytes := short_bytes order short_endian_check_number in
  let byte_order :=
    if bool_decide (to_char short_endian_check_number = nth 1 short_endian_check_bytes 0)
    then 1 else 0 in
  fprintf headerFile "byte order = %d\n" [ArgInt byte_order];;
  fprintf headerFile "\n" [];;
  fclose headerFile.

(** The call [write_ENVI_header(header_name, default_z_value, image, georef)].
    The template is instantiated before anything runs: when the channel
    type of the view has no specialisation of [vw_to_envi_channel_type],
    the expression [vw_to_envi_channel_type<channel_type>::value()] names
    no member and the program is ill-formed. *)
Definition write_ENVI_header (header_name : string) (default_z_value : float)
    (image : ImageView pixel_type) (georef : GeoReference.t) : M unit :=
  match vw_to_envi_channel_type channel_type with
  | Some value => write_ENVI_header_body value header_name default_z_value image georef
  | None => λ _, IllFormed
  end.
End write_ENVI_header.

(** What [std::min_element] and [std::max_element] require of [operator<]
    for their result to be an extremum: a strict order. *)
Class LessThanComparable (pixel_type : Type) {PT : PixelType pixel_type} : Prop := {
  pixel_lt_irrefl : ∀ a, pixel_lt a a = false;
  pixel_lt_trans : ∀ a b c, pixel_lt a b = true → pixel_lt b c = true → pixel_lt a c = true
}.

(** The conversion of the pixel type to [double] keeps its order:
    [operator<] on two pixels is [<] on their [double] values.  This is so
    for the supported channel types, whose values are all [double] values. *)
Class OrderPreservingConversion (pixel_type : Type) {PT : PixelType pixel_type} : Prop :=
  pixel_lt_double :
    ∀ a b : pixel_type, pixel_lt a b = (pixel_to_double a <? pixel_to_double b)%float.

(** An image has a sample when none of its dimensions is zero. *)
Definition has_samples {pixel_type} (image : ImageView pixel_type) : Prop :=
  (0 < cols image ∧ 0 < rows image ∧ 0 < planes image)%nat.

(** The endianness probe of the function, as a value of the byte order. *)
Definition byte_order_of (order : Endianness) : Z :=
  match order with
  | LittleEndian => 0
  | BigEndian => 1
  end.

(** ** The header format, after the specification's description of the file *)

(** The fields of a header. *)
Record Header : Type := mkHeader {
  projection : string;
  minimum_x : float;
  minimum_y : float;
  maximum_x : float;
  maximum_y : float;
  minimum_z : float;
  maximum_z : float;
  default_z : float;
  samples : Z;
  lines : Z;
  bands : Z;
  map_x : float;
  map_y : float;
  x_scale : float;
  y_scale : float;
  datum_name : string;
  data_type : Z;
  byte_order : Z
}.

Definition line (text : string) : string := text +:+ LF.

Definition format_marker : string := line "ENVI".

(** The fixed text on how the elevation map was produced. *)
Definition provenance : string :=
  line "   -- Digital Elevation Map generated by the NASA Ames Stereo Pipeline --" +:+
  line "   " +:+
  line "   The Ames Stereo Pipeline generates 3D coordinates in a planetocentric " +:+
  line "   coordinate system with the origin at the planetary center of mass." +:+
  line "   Elevations are referenced relative to standards set by the International" +:+
  line "   Astronomical Union (IAU)" +:+
  line "   " +:+
  line "   This DEM was generated using an area based correlation technique followed by several " +:+
  line "   several stages of outlier detection.  This produced a map of the disparities for each " +:+
  line "   pixel which was then interpolated (hole filled) using a 2D non-uniform b-spline fitting" +:+
  line "   process.  You should find a interpolation map file included in this archive that shows" +:+
  line "   which pixels represent interpolated data." +:+
  line "   ".

Definition bounding_box_lines (h : Header) : string :=
  line "   Bounding box:" +:+
  line ("     Minimum X (left)    = " +:+ printf_f (minimum_x h)) +:+
  line ("     Minimum Y (top)     = " +:+ printf_f (minimum_y h)) +:+
  line ("     Maximum X (right)   = " +:+ printf_f (maximum_x h)) +:+
  line ("     Maximum Y (bottom)  = " +:+ printf_f (maximum_y h)) +:+
  line ("     Minimum Z           = " +:+ printf_f (minimum_z h)) +:+
  line ("     Maximum Z           = " +:+ printf_f (maximum_z h)) +:+
  line ("     Default Z           = " +:+ printf_f (default_z h)).

Definition description_block (h : Header) : string :=
  line "description = { " +:+
  provenance +:+
  line "   Projection Information:" +:+
  line ("   " +:+ projection h) +:+
  line "   " +:+
  bounding_box_lines h +:+
  line "}".

Definition samples_line (h : Header) : string := line ("samples = " +:+ printf_d (samples h)).
Definition lines_line (h : Header) : string := line ("lines   = " +:+ printf_d (lines h)).
Definition bands_line (h : Header) : string := line ("bands   = " +:+ printf_d (bands h)).
Definition header_offset_line : string := line "header offset = 0".

Definition map_info_line (h : Header) : string :=
  "map info = { Geographic Lat/Lon, 1.5, 1.5, " +:+
  printf_f (map_x h) +:+ ", " +:+ printf_f (map_y h) +:+ ", " +:+
  printf_f (x_scale h) +:+ ", " +:+ printf_f (y_scale h) +:+ ", " +:+
  datum_name h +:+ ", units=Degrees}" +:+ LF.

Definition file_type_line : string := line "file type = ENVI Standard".
Definition data_type_line (h : Header) : string := line ("data type = " +:+ printf_d (data_type h)).
Definition interleave_line : string := line "interleave = bsq".
Definition byte_order_line (h : Header) : string := line ("byte order = " +:+ printf_d (byte_order h)).

(** The text of the header before and after its map info line. *)
Definition before_map_info (h : Header) : string :=
  format_marker +:+ description_block h +:+
  samples_line h +:+ lines_line h +:+ bands_line h +:+ header_offset_line.

Definition after_map_info (h : Header) : string :=
  file_type_line +:+ data_type_line h +:+ interleave_line +:+ byte_order_line h +:+ LF.

(** The whole file. *)
Definition header_text (h : Header) : string :=
  before_map_info h +:+ map_info_line h +:+ after_map_info h.

(** The header that describes an image and its geospatial reference, for a
    data-type code, a byte order and the two extreme sample values. *)
Definition header_of {pixel_type} (value : Z) (default_z_value : float)
    (image : ImageView pixel_type) (georef : GeoReference.t)
    (order : Endianness) (min_value max_value : float) : Header :=
  let bounding_box := GeoReference.bounding_box georef (cols image) (rows image) in
  {| projection := c_str (GeoReference.to_stream georef);
     minimum_x := Vector2.x (BBox2.min bounding_box);
     minimum_y := Vector2.y (BBox2.min bounding_box);
     maximum_x := Vector2.x (BBox2.max bounding_box);
     maximum_y := Vector2.y (BBox2.max bounding_box);
     minimum_z := min_value;
     maximum_z := max_value;
     default_z := default_z_value;
     samples := Z.of_nat (cols image);
     lines := Z.of_nat (rows image);
     bands := Z.of_nat (planes image);
     map_x := Vector2.x (BBox2.min bounding_box);
     map_y := Vector2.y (BBox2.max bounding_box);
     x_scale := GeoReference.transform georef 0%nat 0%nat;
     y_scale := GeoReference.transform georef 1%nat 1%nat;
     datum_name := c_str (Datum.name (GeoReference.datum georef));
     data_type := value;
     byte_order := byte_order_of order |}.

(** The world while the stream on [path] is open with [text] written. *)
Definition opened (w : World) (path text : string) : World :=
  mkWorld (<[path := text]> (files w)) (can_open w) (path :: open_streams w) (host w).

(** The text of one [fprintf] call. *)
Definition text_of (format : string) (args : list Arg) : string :=
  default EmptyString (vsprintf (C format) args).

(** What is written before the samples of the image are read. *)
Definition preamble (georef : GeoReference.t) : string :=
  format_marker +:+
  line "description = { " +:+
  provenance +:+
  line "   Projection Information:" +:+
  line ("   " +:+ c_str (GeoReference.to_stream georef)).

(** A call fails explicitly when it throws. *)
Definition fails_explicitly {A} (o : Outcome A) : Prop :=
  ∃ what w, o = Thrown what w.

(** The world once the header file is closed with [text] in it. *)
Definition with_file (w : World) (path text : string) : World :=
  mkWorld (<[path := text]> (files w)) (can_open w) (open_streams w) (host w).

(** ** Instances and inputs used in the examples *)

(** Pixels of type [double]. *)
#[global] Instance float64_pixel : PixelType float := {|
  channel_type := float64;
  pixel_lt := PrimFloat.ltb;
  pixel_to_double := λ v, v
|}.

(** Pixels of type [vw::int8], a channel type without a data-type code. *)
Definition int8_pixel : PixelType Z := {|
  channel_type := int8;
  pixel_lt := Z.ltb;
  pixel_to_double := λ n, if n <? 0 then (- PrimFloat.of_uint63 (Uint63.of_Z (- n)))%float
                          else PrimFloat.of_uint63 (Uint63.of_Z n)
|}.

(** Four columns, three rows and one plane of samples 7.0. *)
Definition flat_image : ImageView float := mkImageView 4 3 1 (λ _ _ _, 7%float).

(** An image without columns. *)
Definition empty_image : ImageView float := mkImageView 0 3 1 (λ _ _ _, 7%float).

Definition int8_image : ImageView Z := mkImageView 4 3 1 (λ _ _ _, 7).

(** A reference with X scale 0.5, Y scale -0.5 and the bounding box from
    (10, 20) to (12, 21.5). *)
Definition example_georef : GeoReference.t :=
  GeoReference.mk
    (λ i j, match i, j with
            | 0%nat, 0%nat => 0.5%float
            | 0%nat, 2%nat => 10%float
            | 1%nat, 1%nat => (-0.5)%float
            | 1%nat, 2%nat => 21.5%float
            | 2%nat, 2%nat => 1%float
            | _, _ => 0%float
            end)
    (Datum.mk "D_MOON")
    (λ _ _, BBox2.mk (Vector2.mk 10 20) (Vector2.mk 12 21.5))
    "-- Geospatial Reference Object --".

(** A little-endian host with no files, on which the paths under [/data/]
    can be opened for writing. *)
Definition example_world : World :=
  mkWorld ∅ (String.prefix "/data/") [] LittleEndian.

(** The header of the example inputs. *)
Definition example_header : Header :=
  mkHeader "-- Geospatial Reference Object --" 10 20 12 21.5 7 7 0 4 3 1 10 21.5 0.5 (-0.5) "D_MOON" 5 0.

(** ** Further inputs and parts of the header *)

(** Two columns and two rows of samples -1.25 (first column) and 3. *)
Definition step_image : ImageView float :=
  mkImageView 2 2 1 (λ c _ _, if (c <? 1)%nat then (-1.25)%float else 3%float).

(** The header up to the Default Z line, and after it. *)
Definition before_default_z (h : Header) : string :=
  format_marker +:+
  line "description = { " +:+
  provenance +:+
  line "   Projection Information:" +:+
  line ("   " +:+ projection h) +:+
  line "   " +:+
  line "   Bounding box:" +:+
  line ("     Minimum X (left)    = " +:+ printf_f (minimum_x h)) +:+
  line ("     Minimum Y (top)     = " +:+ printf_f (minimum_y h)) +:+
  line ("     Maximum X (right)   = " +:+ printf_f (maximum_x h)) +:+
  line ("     Maximum Y (bottom)  = " +:+ printf_f (maximum_y h)) +:+
  line ("     Minimum Z           = " +:+ printf_f (minimum_z h)) +:+
  line ("     Maximum Z           = " +:+ printf_f (maximum_z h)).

Definition after_default_z (h : Header) : string :=
  line "}" +:+
  samples_line h +:+ lines_line h +:+ bands_line h +:+ header_offset_line +:+
  map_info_line h +:+ after_map_info h.

(** An image whose first sample is NaN. *)
Definition nan_first_image : ImageView float :=
  mkImageView 2 1 1 (λ c _ _, if (c <? 1)%nat then nan else 3%float).

(** * Properties *)

(** ** Strings *)

Lemma append_assoc (s1 s2 s3 : string) : (s1 +:+ s2) +:+ s3 = s1 +:+ (s2 +:+ s3).
Proof.
  induction s1 as [|c s1 IH]; [reflexivity|].
  change (String c ((s1 +:+ s2) +:+ s3) = String c (s1 +:+ (s2 +:+ s3))).
  by rewrite IH.
Qed.

(** ** The order of [double] *)

Lemma SFltb_irrefl (v : spec_float) : SFltb v v = false.
Proof.
  destruct v as [[]|[]| |[] m e]; try reflexivity;
    unfold SFltb; cbn; by rewrite Z.compare_refl, Pos.compare_cont_refl.
Qed.

Lemma SFltb_trans (a b c : spec_float) :
  SFltb a b = true → SFltb b c = true → SFltb a c = true.
Proof.
  unfold SFltb.
  destruct a as [[]|[]| |[] ma ea], b as [[]|[]| |[] mb eb], c as [[]|[]| |[] mc ec];
    cbn; try done;
    change (PosDef.Pos.compare_cont Eq) with Pos.compare;
    destruct (Z.compare_spec ea eb), (Z.compare_spec eb ec), (Z.compare_spec ea ec);
    try done; try lia; subst;
    destruct (Pos.compare_spec ma mb), (Pos.compare_spec mb mc), (Pos.compare_spec ma mc);
    cbn; try done; lia.
Qed.

#[global] Instance float64_LessThanComparable : LessThanComparable float.
Proof.
  split; cbn.
  - intros a. rewrite ltb_spec. apply SFltb_irrefl.
  - intros a b c. rewrite !ltb_spec. apply SFltb_trans.
Qed.

(** ** The standard algorithms *)

Section extrema.
Context {T : Type} (lt : T → T → bool).

Lemma min_element_loop_bound (rest : list T) (first result : nat) (smallest : T) :
  (result < first)%nat →
  (min_element_loop lt rest first result smallest < first + length rest)%nat.
Proof.
  revert first result smallest.
  induction rest as [|v rest IH]; intros first result smallest Hlt; cbn; [lia|].
  destruct (lt v smallest).
  - specialize (IH (S first) first v). lia.
  - specialize (IH (S first) result smallest). lia.
Qed.

Lemma max_element_loop_bound (rest : list T) (first result : nat) (largest : T) :
  (result < first)%nat →
  (max_element_loop lt rest first result largest < first + length rest)%nat.
Proof.
  revert first result largest.
  induction rest as [|v rest IH]; intros first result largest Hlt; cbn; [lia|].
  destruct (lt largest v).
  - specialize (IH (S first) first v). lia.
  - specialize (IH (S first) result largest). lia.
Qed.

(** On a range that is not empty both algorithms return an iterator that
    can be dereferenced. *)
Lemma min_element_lookup (range : list T) :
  range ≠ [] → is_Some (range !! min_element lt range).
Proof.
  destruct range as [|v rest]; [done|intros _].
  apply lookup_lt_is_Some. cbn [min_element length].
  pose proof (min_element_loop_bound rest 1 0 v). lia.
Qed.

Lemma max_element_lookup (range : list T) :
  range ≠ [] → is_Some (range !! max_element lt range).
Proof.
  destruct range as [|v rest]; [done|intros _].
  apply lookup_lt_is_Some. cbn [max_element length].
  pose proof (max_element_loop_bound rest 1 0 v). lia.
Qed.

(** On an empty range both return [last], which is the end of the range. *)
Lemma min_element_empty : ([] : list T) !! min_element lt [] = None.
Proof. reflexivity. Qed.

Lemma max_element_empty : ([] : list T) !! max_element lt [] = None.
Proof. reflexivity. Qed.

Hypothesis lt_irrefl : ∀ a, lt a a = false.
Hypothesis lt_trans : ∀ a b c, lt a b = true → lt b c = true → lt a c = true.

Lemma min_element_loop_spec (seen rest : list T) (first result : nat) (smallest : T) :
  length seen = first →
  (seen ++ rest) !! result = Some smallest →
  (result < first)%nat →
  (∀ v, v ∈ seen → lt v smallest = false) →
  ∃ m, (seen ++ rest) !! min_element_loop lt rest first result smallest = Some m ∧
       ∀ v, v ∈ seen ++ rest → lt v m = false.
Proof.
  revert seen first result smallest.
  induction rest as [|v rest IH]; intros seen first result smallest Hlen Hres Hlt Hmin.
  - exists smallest. by rewrite app_nil_r in *.
  - cbn [min_element_loop]. rewrite cons_middle, app_assoc in Hres |- *.
    destruct (lt v smallest) eqn:Hv.
    + apply IH.
      * rewrite length_app. cbn. lia.
      * rewrite lookup_app_l by (rewrite length_app; cbn; lia).
        subst first. apply list_lookup_middle. done.
      * lia.
      * intros u [Hu| ->%list_elem_of_singleton]%elem_of_app; [|done].
        destruct (lt u v) eqn:Huv; [|done].
        rewrite <- (Hmin u Hu). symmetry. eauto.
    + apply IH.
      * rewrite length_app. cbn. lia.
      * done.
      * lia.
      * intros u [Hu| ->%list_elem_of_singleton]%elem_of_app; auto.
Qed.

Lemma max_element_loop_spec (seen rest : list T) (first result : nat) (largest : T) :
  length seen = first →
  (seen ++ rest) !! result = Some largest →
  (result < first)%nat →
  (∀ v, v ∈ seen → lt largest v = false) →
  ∃ m, (seen ++ rest) !! max_element_loop lt rest first result largest = Some m ∧
       ∀ v, v ∈ seen ++ rest → lt m v = false.
Proof.
  revert seen first result largest.
  induction rest as [|v rest IH]; intros seen first result largest Hlen Hres Hlt Hmax.
  - exists largest. by rewrite app_nil_r in *.
  - cbn [max_element_loop]. rewrite cons_middle, app_assoc in Hres |- *.
    destruct (lt largest v) eqn:Hv.
    + apply IH.
      * rewrite length_app. cbn. lia.
      * rewrite lookup_app_l by (rewrite length_app; cbn; lia).
        subst first. apply list_lookup_middle. done.
      * lia.
      * intros u [Hu| ->%list_elem_of_singleton]%elem_of_app; [|done].
        destruct (lt v u) eqn:Hvu; [|done].
        rewrite <- (Hmax u Hu). symmetry. eauto.
    + apply IH.
      * rewrite length_app. cbn. lia.
      * done.
      * lia.
      * intros u [Hu| ->%list_elem_of_singleton]%elem_of_app; auto.
Qed.

(** [std::min_element] finds an element below which the range has none. *)
Lemma min_element_spec (range : list T) :
  range ≠ [] →
  ∃ m, range !! min_element lt range = Some m ∧ ∀ v, v ∈ range → lt v m = false.
Proof.
  destruct range as [|v rest]; [done|intros _].
  apply (min_element_loop_spec [v] rest 1 0 v); [done|done|lia|].
  by intros u ->%list_elem_of_singleton.
Qed.

(** [std::max_element] finds an element above which the range has none. *)
Lemma max_element_spec (range : list T) :
  range ≠ [] →
  ∃ m, range !! max_element lt range = Some m ∧ ∀ v, v ∈ range → lt m v = false.
Proof.
  destruct range as [|v rest]; [done|intros _].
  apply (max_element_loop_spec [v] rest 1 0 v); [done|done|lia|].
  by intros u ->%list_elem_of_singleton.
Qed.
End extrema.

(** ** The pixels of a view *)

Lemma bind_length_const {A B} (f : A → list B) (n : nat) (l : list A) :
  (∀ a, length (f a) = n) → length (l ≫= f) = (length l * n)%nat.
Proof.
  intros Hf. induction l as [|a l IH]; [done|].
  rewrite bind_cons, length_app, Hf, IH. cbn. lia.
Qed.

(** The range of a view has one element per column, row and plane. *)
Lemma pixels_length {pixel_type} (image : ImageView pixel_type) :
  length (pixels image) = (planes image * rows image * cols image)%nat.
Proof.
  unfold pixels.
  rewrite (bind_length_const _ (rows image * cols image)%nat), length_seq; [lia|].
  intros p. rewrite (bind_length_const _ (cols image)), length_seq; [lia|].
  intros r. rewrite (bind_length_const _ 1%nat), length_seq; [lia|done].
Qed.

Lemma pixels_nonempty {pixel_type} (image : ImageView pixel_type) :
  has_samples image ↔ pixels image ≠ [].
Proof.
  unfold has_samples. rewrite <- length_zero_iff_nil, pixels_length. nia.
Qed.

Lemma pixels_empty {pixel_type} (image : ImageView pixel_type) :
  (cols image = 0 ∨ rows image = 0 ∨ planes image = 0)%nat ↔ pixels image = [].
Proof. rewrite <- length_zero_iff_nil, pixels_length. nia. Qed.

(** Every element of the range is a pixel of the view at coordinates within
    its dimensions, and conversely. *)
Lemma elem_of_pixels {pixel_type} (image : ImageView pixel_type) (v : pixel_type) :
  v ∈ pixels image ↔
  ∃ c r p, (c < cols image ∧ r < rows image ∧ p < planes image)%nat ∧ v = pixel image c r p.
Proof.
  unfold pixels. rewrite list_elem_of_bind. split.
  - intros (p & (r & (c & ->%list_elem_of_singleton & Hc%elem_of_seq)%list_elem_of_bind
                    & Hr%elem_of_seq)%list_elem_of_bind & Hp%elem_of_seq).
    exists c, r, p. split; [lia|done].
  - intros (c & r & p & (Hc & Hr & Hp) & ->).
    exists p. split; [|apply elem_of_seq; lia].
    apply list_elem_of_bind. exists r. split; [|apply elem_of_seq; lia].
    apply list_elem_of_bind. exists c. split; [|apply elem_of_seq; lia].
    by apply list_elem_of_singleton.
Qed.

(** ** Execution of the stream functions *)

Lemma bind_returned {A B} (m : M A) (k : A → M B) (w w' : World) (a : A) :
  m w = Returned a w' → (m ≫= k) w = k a w'.
Proof. unfold mbind, M_bind. by intros ->. Qed.

Lemma fopen_opened (w : World) (path : string) :
  can_open w path = true → fopen path "w" w = Returned (Some path) (opened w path "").
Proof. unfold fopen. intros ->. reflexivity. Qed.

Lemma fopen_null (w : World) (path : string) :
  can_open w path = false → fopen path "w" w = Returned None w.
Proof. unfold fopen. intros ->. reflexivity. Qed.

Lemma fprintf_opened (w : World) (path text format : string) (args : list Arg) :
  is_Some (vsprintf (C format) args) →
  fprintf (Some path) format args (opened w path text)
  = Returned () (opened w path (text +:+ text_of format args)).
Proof.
  intros [out Hout]. unfold fprintf, text_of, opened, contents. rewrite Hout. cbn.
  by rewrite lookup_insert_eq, insert_insert_eq.
Qed.

Lemma fclose_opened (w : World) (path text : string) :
  fclose (Some path) (opened w path text) = Returned () (with_file w path text).
Proof. unfold fclose, opened, with_file. cbn. by rewrite bool_decide_eq_true_2. Qed.

Lemma deref_lookup {T} (range : list T) (it : nat) (v : T) (w : World) :
  range !! it = Some v → deref range it w = Returned v w.
Proof. unfold deref. by intros ->. Qed.

Lemma fmap_returned {A B} (f : A → B) (m : M A) (w w' : World) (a : A) :
  m w = Returned a w' → (f <$> m) w = Returned (f a) w'.
Proof. intros Hm. unfold fmap, M_fmap. by rewrite (bind_returned _ _ _ _ _ Hm). Qed.

Lemma bind_undefined {A B} (m : M A) (k : A → M B) (w w' : World) (u : Undefined) :
  m w = UndefinedBehaviour u w' → (m ≫= k) w = UndefinedBehaviour u w'.
Proof. unfold mbind, M_bind. by intros ->. Qed.

Lemma deref_end {T} (range : list T) (it : nat) (w : World) :
  range !! it = None → deref range it w = UndefinedBehaviour PastTheEnd w.
Proof. unfold deref. by intros ->. Qed.

Lemma fmap_undefined {A B} (f : A → B) (m : M A) (w w' : World) (u : Undefined) :
  m w = UndefinedBehaviour u w' → (f <$> m) w = UndefinedBehaviour u w'.
Proof. intros Hm. unfold fmap, M_fmap. by rewrite (bind_undefined _ _ _ _ _ Hm). Qed.

Lemma host_order_returned (w : World) : host_order w = Returned (host w) w.
Proof. reflexivity. Qed.

(** One [fprintf] on the open stream, which cannot fail: all formats of the
    function match their arguments. *)
Ltac fprintf_step :=
  erewrite bind_returned by (apply fprintf_opened; eexists; reflexivity).

(** ** Execution of [write_ENVI_header] *)

Section execution.
Context {pixel_type : Type} {PT : PixelType pixel_type}.
Implicit Types (value : Z) (header_name : string) (default_z_value : float).
Implicit Types (image : ImageView pixel_type) (georef : GeoReference.t) (w : World).

(** When the file opens and both iterators can be dereferenced, the body
    runs to its end and leaves the header in the file. *)
Lemma write_ENVI_header_body_returns value header_name default_z_value image georef w
    (smallest largest : pixel_type) :
  can_open w (c_str header_name) = true →
  pixels image !! min_element pixel_lt (pixels image) = Some smallest →
  pixels image !! max_element pixel_lt (pixels image) = Some largest →
  write_ENVI_header_body value header_name default_z_value image georef w
  = Returned () (with_file w (c_str header_name)
      (header_text (header_of value default_z_value image georef (host w)
                      (pixel_to_double smallest) (pixel_to_double largest)))).
Proof.
  intros Hopen Hmin Hmax. unfold write_ENVI_header_body.
  rewrite (bind_returned _ _ _ _ _ (fopen_opened _ _ Hopen)).
  repeat fprintf_step. cbv zeta.
  rewrite (bind_returned _ _ _ _ _ (fmap_returned _ _ _ _ _ (deref_lookup _ _ _ _ Hmin))).
  rewrite (bind_returned _ _ _ _ _ (fmap_returned _ _ _ _ _ (deref_lookup _ _ _ _ Hmax))).
  repeat fprintf_step.
  rewrite (bind_returned _ _ _ _ _ (host_order_returned _)). cbv zeta.
  repeat fprintf_step.
  rewrite fclose_opened.
  apply (f_equal (λ text, Returned () (with_file w (c_str header_name) text))).
  change (host (opened w (c_str header_name) _)) with (host w).
  unfold header_text, before_map_info, after_map_info, description_block,
    provenance, bounding_box_lines.
  rewrite !append_assoc.
  destruct (host w); reflexivity.
Qed.

(** When the file does not open, the first [fprintf] gets the null stream. *)
Lemma write_ENVI_header_body_null value header_name default_z_value image georef w :
  can_open w (c_str header_name) = false →
  write_ENVI_header_body value header_name default_z_value image georef w
  = UndefinedBehaviour NullStream w.
Proof.
  intros Hopen. unfold write_ENVI_header_body.
  rewrite (bind_returned _ _ _ _ _ (fopen_null _ _ Hopen)).
  reflexivity.
Qed.

(** When the image has no pixel, the iterator that [min_element] returns is
    [end()], and it is dereferenced with the preamble written and the
    stream open. *)
Lemma write_ENVI_header_body_empty value header_name default_z_value image georef w :
  can_open w (c_str header_name) = true →
  pixels image = [] →
  write_ENVI_header_body value header_name default_z_value image georef w
  = UndefinedBehaviour PastTheEnd (opened w (c_str header_name) (preamble georef)).
Proof.
  intros Hopen Hempty. unfold write_ENVI_header_body.
  rewrite (bind_returned _ _ _ _ _ (fopen_opened _ _ Hopen)).
  repeat fprintf_step. cbv zeta.
  rewrite Hempty.
  erewrite bind_undefined
    by (apply fmap_undefined, deref_end, min_element_empty).
  apply (f_equal (λ text, UndefinedBehaviour PastTheEnd (opened w (c_str header_name) text))).
  unfold preamble, provenance. rewrite !append_assoc. reflexivity.
Qed.

(** When the channel type has a code, the file opens and the image has a
    sample, the function returns and the file holds the header. *)
Lemma write_ENVI_header_returns header_name default_z_value image georef w value :
  vw_to_envi_channel_type channel_type = Some value →
  can_open w (c_str header_name) = true →
  has_samples image →
  ∃ smallest largest,
    pixels image !! min_element pixel_lt (pixels image) = Some smallest ∧
    pixels image !! max_element pixel_lt (pixels image) = Some largest ∧
    write_ENVI_header header_name default_z_value image georef w
    = Returned () (with_file w (c_str header_name)
        (header_text (header_of value default_z_value image georef (host w)
                        (pixel_to_double smallest) (pixel_to_double largest)))).
Proof.
  intros Hvalue Hopen Hsamples%pixels_nonempty.
  destruct (min_element_lookup pixel_lt _ Hsamples) as [smallest Hmin].
  destruct (max_element_lookup pixel_lt _ Hsamples) as [largest Hmax].
  exists smallest, largest. split_and!; [done..|].
  unfold write_ENVI_header. rewrite Hvalue.
  by apply write_ENVI_header_body_returns.
Qed.

(** Conversely, it returns only then. *)
Lemma write_ENVI_header_returned_inv header_name default_z_value image georef w w' :
  write_ENVI_header header_name default_z_value image georef w = Returned () w' →
  is_Some (vw_to_envi_channel_type channel_type) ∧
  can_open w (c_str header_name) = true ∧
  has_samples image.
Proof.
  unfold write_ENVI_header.
  destruct (vw_to_envi_channel_type channel_type) as [value|]; [|done].
  destruct (can_open w (c_str header_name)) eqn:Hopen.
  - destruct (decide (pixels image = [])) as [Hempty|Hsamples].
    + by rewrite write_ENVI_header_body_empty.
    + intros _. split_and!; [by eexists|done|by apply pixels_nonempty].
  - by rewrite write_ENVI_header_body_null.
Qed.
(** Every outcome of the call: the function has no path that throws. *)
Lemma write_ENVI_header_outcome header_name default_z_value image georef w :
  write_ENVI_header header_name default_z_value image georef w
  = match vw_to_envi_channel_type channel_type with
    | None => IllFormed
    | Some value =>
        if can_open w (c_str header_name) then
          match pixels image !! min_element pixel_lt (pixels image),
                pixels image !! max_element pixel_lt (pixels image) with
          | Some smallest, Some largest =>
              Returned () (with_file w (c_str header_name)
                (header_text (header_of value default_z_value image georef (host w)
                                (pixel_to_double smallest) (pixel_to_double largest))))
          | _, _ =>
              UndefinedBehaviour PastTheEnd (opened w (c_str header_name) (preamble georef))
          end
        else UndefinedBehaviour NullStream w
    end.
Proof.
  unfold write_ENVI_header.
  destruct (vw_to_envi_channel_type channel_type) as [value|]; [|done].
  destruct (can_open w (c_str header_name)) eqn:Hopen.
  - destruct (decide (pixels image = [])) as [Hempty|Hsamples].
    + rewrite write_ENVI_header_body_empty by done. by rewrite Hempty.
    + destruct (min_element_lookup pixel_lt _ Hsamples) as [smallest Hmin].
      destruct (max_element_lookup pixel_lt _ Hsamples) as [largest Hmax].
      rewrite Hmin, Hmax. by apply write_ENVI_header_body_returns.
  - by apply write_ENVI_header_body_null.
Qed.

Lemma write_ENVI_header_never_throws header_name default_z_value image georef w :
  ¬ fails_explicitly (write_ENVI_header header_name default_z_value image georef w).
Proof.
  intros (what & w' & Hthrown). rewrite write_ENVI_header_outcome in Hthrown.
  repeat case_match; discriminate.
Qed.
End execution.

(** ** Which element the algorithms choose *)

Section chosen.
Context {T : Type} (lt : T → T → bool).

(** An element that nothing is below is never replaced. *)
Lemma min_element_loop_stays (rest : list T) (first result : nat) (smallest : T) :
  (∀ v, lt v smallest = false) →
  min_element_loop lt rest first result smallest = result.
Proof.
  intros Hleast. revert first.
  induction rest as [|v rest IH]; intros first; cbn; [done|].
  by rewrite Hleast.
Qed.

Lemma max_element_loop_stays (rest : list T) (first result : nat) (largest : T) :
  (∀ v, lt largest v = false) →
  max_element_loop lt rest first result largest = result.
Proof.
  intros Hgreatest. revert first.
  induction rest as [|v rest IH]; intros first; cbn; [done|].
  by rewrite Hgreatest.
Qed.

(** The element found is the first one or one that compared below another. *)
Lemma min_element_loop_chosen (P : T → Prop) (seen rest : list T)
    (first result : nat) (smallest : T) :
  (∀ v u, lt v u = true → P v) →
  length seen = first →
  (seen ++ rest) !! result = Some smallest →
  (result < first)%nat →
  P smallest →
  ∃ m, (seen ++ rest) !! min_element_loop lt rest first result smallest = Some m ∧ P m.
Proof.
  intros Hbelow. revert seen first result smallest.
  induction rest as [|v rest IH]; intros seen first result smallest Hlen Hres Hlt HP.
  - by exists smallest.
  - cbn [min_element_loop]. rewrite cons_middle, app_assoc in Hres |- *.
    destruct (lt v smallest) eqn:Hv.
    + apply IH; [rewrite length_app; cbn; lia| |lia|by eapply Hbelow].
      rewrite lookup_app_l by (rewrite length_app; cbn; lia).
      subst first. by apply list_lookup_middle.
    + apply IH; [rewrite length_app; cbn; lia|done|lia|done].
Qed.

(** The element found is the first one or one that compared above another. *)
Lemma max_element_loop_chosen (P : T → Prop) (seen rest : list T)
    (first result : nat) (largest : T) :
  (∀ u v, lt u v = true → P v) →
  length seen = first →
  (seen ++ rest) !! result = Some largest →
  (result < first)%nat →
  P largest →
  ∃ m, (seen ++ rest) !! max_element_loop lt rest first result largest = Some m ∧ P m.
Proof.
  intros Habove. revert seen first result largest.
  induction rest as [|v rest IH]; intros seen first result largest Hlen Hres Hlt HP.
  - by exists largest.
  - cbn [max_element_loop]. rewrite cons_middle, app_assoc in Hres |- *.
    destruct (lt largest v) eqn:Hv.
    + apply IH; [rewrite length_app; cbn; lia| |lia|by eapply Habove].
      rewrite lookup_app_l by (rewrite length_app; cbn; lia).
      subst first. by apply list_lookup_middle.
    + apply IH; [rewrite length_app; cbn; lia|done|lia|done].
Qed.
End chosen.

(** The range of an image with a sample starts with its pixel at the origin. *)
Lemma pixels_first {pixel_type} (image : ImageView pixel_type) :
  has_samples image → ∃ rest, pixels image = pixel image 0 0 0 :: rest.
Proof.
  intros (Hc & Hr & Hp). unfold pixels.
  destruct (cols image) as [|c]; [lia|].
  destruct (rows image) as [|r]; [lia|].
  destruct (planes image) as [|p]; [lia|].
  cbn [seq]. rewrite !bind_cons. cbn [app]. by eexists.
Qed.

(** ** Comparisons of [double] and NaN *)

Lemma SFcompare_refl (v : spec_float) : v ≠ S754_nan → SFcompare v v = Some Eq.
Proof.
  destruct v as [[]|[]| |[] m e]; try done; intros _; cbn;
    by rewrite Z.compare_refl, Pos.compare_cont_refl.
Qed.

Lemma is_nan_Prim2SF (v : float) : PrimFloat.is_nan v = true ↔ Prim2SF v = S754_nan.
Proof.
  unfold PrimFloat.is_nan. rewrite FloatAxioms.eqb_spec. unfold SFeqb. split.
  - intros Hnan. destruct (Prim2SF v) as [s|s| |s m e] eqn:Hv; [| |done|];
      by rewrite SFcompare_refl in Hnan.
  - by intros ->.
Qed.

Lemma SFltb_not_nan (a b : spec_float) :
  SFltb a b = true → a ≠ S754_nan ∧ b ≠ S754_nan.
Proof. unfold SFltb. by destruct a, b. Qed.

Lemma ltb_not_nan (a b : float) :
  (a <? b)%float = true → PrimFloat.is_nan a = false ∧ PrimFloat.is_nan b = false.
Proof.
  rewrite ltb_spec. intros [Ha Hb]%SFltb_not_nan.
  split; apply not_true_is_false; by rewrite is_nan_Prim2SF.
Qed.

Lemma ltb_nan_l (a b : float) : PrimFloat.is_nan a = true → (a <? b)%float = false.
Proof.
  intros Ha. apply not_true_is_false. intros [Hnan _]%ltb_not_nan. congruence.
Qed.

Lemma ltb_nan_r (a b : float) : PrimFloat.is_nan b = true → (a <? b)%float = false.
Proof.
  intros Hb. apply not_true_is_false. intros [_ Hnan]%ltb_not_nan. congruence.
Qed.

(** Two values that are not NaN are comparable. *)
Lemma SFleb_of_not_ltb (a b : spec_float) :
  a ≠ S754_nan → b ≠ S754_nan → SFltb a b = false → SFleb b a = true.
Proof.
  unfold SFltb, SFleb.
  destruct a as [[]|[]| |[] ma ea], b as [[]|[]| |[] mb eb]; cbn; try done;
    intros _ _;
    change (PosDef.Pos.compare_cont Eq) with Pos.compare;
    rewrite (Z.compare_antisym ea eb), (Pos.compare_antisym ma mb);
    destruct (ea ?= eb); cbn; try done;
    by destruct (ma ?= mb)%positive.
Qed.

Lemma leb_of_not_ltb (a b : float) :
  PrimFloat.is_nan a = false → PrimFloat.is_nan b = false →
  (a <? b)%float = false → (b <=? a)%float = true.
Proof.
  rewrite ltb_spec, leb_spec. intros Ha Hb.
  apply SFleb_of_not_ltb; intros Hnan%is_nan_Prim2SF; congruence.
Qed.

(** ** Pixel types ordered as their [double] values *)

Lemma pixel_lt_double_irrefl {pixel_type} {PT : PixelType pixel_type}
    {OPC : OrderPreservingConversion pixel_type} (a : pixel_type) :
  pixel_lt a a = false.
Proof. rewrite pixel_lt_double, ltb_spec. apply SFltb_irrefl. Qed.

Lemma pixel_lt_double_trans {pixel_type} {PT : PixelType pixel_type}
    {OPC : OrderPreservingConversion pixel_type} (a b c : pixel_type) :
  pixel_lt a b = true → pixel_lt b c = true → pixel_lt a c = true.
Proof. rewrite !pixel_lt_double, !ltb_spec. apply SFltb_trans. Qed.

#[global] Instance float64_OrderPreservingConversion : OrderPreservingConversion float.
Proof. intros a b. reflexivity. Qed.

(** ** The channel-type table *)

Lemma vw_to_envi_channel_type_supported (c : ChannelT) :
  c ∈ supported_channels ↔ is_Some (vw_to_envi_channel_type c).
Proof.
  unfold supported_channels. split.
  - intros Hc. repeat (apply elem_of_cons in Hc as [->|Hc]; [by eexists|]).
    by apply elem_of_nil in Hc.
  - destruct c; cbn; intros [v Hv]; try done; set_solver.
Qed.

(** C1. For each of the seven supported channel kinds the resolver returns
    the code of the table (1, 2, 3, 4, 5, 12, 13); it is defined on every
    supported kind, no two kinds share a code, and it is undefined for every
    kind outside the supported set. *)
Theorem vw_to_envi_channel_type_table :
  (vw_to_envi_channel_type uint8 = Some 1 ∧
   vw_to_envi_channel_type int16 = Some 2 ∧
   vw_to_envi_channel_type int32 = Some 3 ∧
   vw_to_envi_channel_type float32 = Some 4 ∧
   vw_to_envi_channel_type float64 = Some 5 ∧
   vw_to_envi_channel_type uint16 = Some 12 ∧
   vw_to_envi_channel_type uint32 = Some 13) ∧
  (∀ c, c ∈ supported_channels → is_Some (vw_to_envi_channel_type c)) ∧
  (∀ c1 c2 v, vw_to_envi_channel_type c1 = Some v →
              vw_to_envi_channel_type c2 = Some v → c1 = c2) ∧
  (∀ c, c ∉ supported_channels → vw_to_envi_channel_type c = None).
Proof.
  split_and!; try reflexivity.
  - intros c. apply vw_to_envi_channel_type_supported.
  - intros c1 c2 v H1 H2. destruct c1; try done; destruct c2; try done; cbn in *; congruence.
  - intros c Hc. rewrite vw_to_envi_channel_type_supported in Hc.
    by destruct (vw_to_envi_channel_type c); [destruct Hc; eexists|].
Qed.

(** ** The header that is written *)

(** The image whose first sample is NaN and whose second sample is 3: the
    call returns, and the value it prints both as Minimum Z and as Maximum
    Z is NaN, which is neither below nor above the sample 3.  The minimum
    and the maximum over every sample are not what is printed for every
    image with a sample. *)
Lemma nan_sample_reported_as_extremum :
  has_samples nan_first_image ∧
  pixel nan_first_image 1 0 0 = 3%float ∧
  write_ENVI_header "/data/nan.hdr" 0 nan_first_image example_georef example_world
  = Returned () (with_file example_world "/data/nan.hdr"
      (header_text (header_of 5 0 nan_first_image example_georef LittleEndian nan nan))) ∧
  (nan <=? 3)%float = false ∧
  (3 <=? nan)%float = false.
Proof.
  split_and!; [cbv; lia|reflexivity|vm_compute; reflexivity|reflexivity..].
Qed.

(** C2, as the code has it. For an image with at least one sample, none of
    them NaN (of a pixel type whose conversion to [double] keeps its order
    and whose channel kind has a code, written to a path that opens), the
    call returns with a header in the file whose [samples], [lines] and
    [bands] are the column, row and plane counts of the image, and the
    doubles printed as Minimum Z and Maximum Z are the values at the
    iterators that [std::min_element] and [std::max_element] return: each is
    the sample at some column, row and plane of the image, and the sample at
    every column, row and plane is at least the first and at most the
    second. *)
Theorem write_ENVI_header_dimensions_and_extrema
    {pixel_type} {PT : PixelType pixel_type} {OPC : OrderPreservingConversion pixel_type}
    (header_name : string) (default_z_value : float)
    (image : ImageView pixel_type) (georef : GeoReference.t) (w : World) (value : Z) :
  vw_to_envi_channel_type channel_type = Some value →
  can_open w (c_str header_name) = true →
  has_samples image →
  (∀ c r p, (c < cols image)%nat → (r < rows image)%nat → (p < planes image)%nat →
            PrimFloat.is_nan (pixel_to_double (pixel image c r p)) = false) →
  ∃ (smallest largest : pixel_type) (h : Header),
    pixels image !! min_element pixel_lt (pixels image) = Some smallest ∧
    pixels image !! max_element pixel_lt (pixels image) = Some largest ∧
    h = header_of value default_z_value image georef (host w)
          (pixel_to_double smallest) (pixel_to_double largest) ∧
    write_ENVI_header header_name default_z_value image georef w
    = Returned () (with_file w (c_str header_name) (header_text h)) ∧
    samples h = Z.of_nat (cols image) ∧
    lines h = Z.of_nat (rows image) ∧
    bands h = Z.of_nat (planes image) ∧
    minimum_z h = pixel_to_double smallest ∧
    maximum_z h = pixel_to_double largest ∧
    (∃ c r p, (c < cols image ∧ r < rows image ∧ p < planes image)%nat ∧
              smallest = pixel image c r p) ∧
    (∃ c r p, (c < cols image ∧ r < rows image ∧ p < planes image)%nat ∧
              largest = pixel image c r p) ∧
    (∀ c r p, (c < cols image)%nat → (r < rows image)%nat → (p < planes image)%nat →
       (pixel_to_double smallest <=? pixel_to_double (pixel image c r p))%float = true ∧
       (pixel_to_double (pixel image c r p) <=? pixel_to_double largest)%float = true).
Proof.
  intros Hvalue Hopen Hsamples Hnumbers.
  destruct (write_ENVI_header_returns header_name default_z_value image georef w value)
    as (smallest & largest & Hmin & Hmax & Hrun); [done..|].
  exists smallest, largest. eexists. split_and!; [done|done|reflexivity|exact Hrun|done..| | |].
  - apply elem_of_pixels. by eapply list_elem_of_lookup_2.
  - apply elem_of_pixels. by eapply list_elem_of_lookup_2.
  - assert (∀ v, v ∈ pixels image → PrimFloat.is_nan (pixel_to_double v) = false) as Hnumber.
    { intros v (c & r & p & (? & ? & ?) & ->)%elem_of_pixels. by apply Hnumbers. }
    apply pixels_nonempty in Hsamples.
    destruct (min_element_spec pixel_lt pixel_lt_double_irrefl pixel_lt_double_trans
                _ Hsamples) as (smallest' & Hmin' & Hleast).
    destruct (max_element_spec pixel_lt pixel_lt_double_irrefl pixel_lt_double_trans
                _ Hsamples) as (largest' & Hmax' & Hgreatest).
    assert (smallest' = smallest) as -> by congruence.
    assert (largest' = largest) as -> by congruence.
    intros c r p Hc Hr Hp.
    assert (pixel image c r p ∈ pixels image) as Hin.
    { apply elem_of_pixels. by exists c, r, p. }
    split; apply leb_of_not_ltb.
    + by apply Hnumber.
    + by eapply Hnumber, list_elem_of_lookup_2.
    + rewrite <- pixel_lt_double. by apply Hleast.
    + by eapply Hnumber, list_elem_of_lookup_2.
    + by apply Hnumber.
    + rewrite <- pixel_lt_double. by apply Hgreatest.
Qed.

Lemma write_ENVI_header_dimensions_and_extrema_witness :
  ∃ h : Header,
    write_ENVI_header "/data/dem.hdr" 0 flat_image example_georef example_world
    = Returned () (with_file example_world "/data/dem.hdr" (header_text h)) ∧
    samples h = 4 ∧ lines h = 3 ∧ bands h = 1 ∧
    printf_f (minimum_z h) = "7.000000" ∧ printf_f (maximum_z h) = "7.000000".
Proof.
  destruct (write_ENVI_header_dimensions_and_extrema
              "/data/dem.hdr" 0 flat_image example_georef example_world 5)
    as (smallest & largest & h & _ & _ & _ & Hrun & Hs & Hl & Hb & Hmin & Hmax
        & (? & ? & ? & _ & ->) & (? & ? & ? & _ & ->) & _).
  - reflexivity.
  - reflexivity.
  - cbv. lia.
  - reflexivity.
  - exists h. rewrite Hs, Hl, Hb, Hmin, Hmax.
    split_and!; [exact Hrun|reflexivity..].
Defined.

(** C3. The map info line of the header that is written carries, after the
    label and the fixed reference pixel 1.5, 1.5: the minimum X of the
    bounding box, its maximum Y, the (0,0) entry of the transform, its (1,1)
    entry, the name of the datum and [units=Degrees], in this order. *)
Theorem write_ENVI_header_map_info {pixel_type} {PT : PixelType pixel_type}
    (header_name : string) (default_z_value : float)
    (image : ImageView pixel_type) (georef : GeoReference.t) (w : World) (value : Z) :
  vw_to_envi_channel_type channel_type = Some value →
  can_open w (c_str header_name) = true →
  has_samples image →
  let bounding_box := GeoReference.bounding_box georef (cols image) (rows image) in
  ∃ h : Header,
    write_ENVI_header header_name default_z_value image georef w
    = Returned () (with_file w (c_str header_name)
        (before_map_info h +:+
         ("map info = { Geographic Lat/Lon, 1.5, 1.5, " +:+
          printf_f (Vector2.x (BBox2.min bounding_box)) +:+ ", " +:+
          printf_f (Vector2.y (BBox2.max bounding_box)) +:+ ", " +:+
          printf_f (GeoReference.transform georef 0%nat 0%nat) +:+ ", " +:+
          printf_f (GeoReference.transform georef 1%nat 1%nat) +:+ ", " +:+
          c_str (Datum.name (GeoReference.datum georef)) +:+ ", units=Degrees}" +:+ LF) +:+
         after_map_info h)).
Proof.
  intros Hvalue Hopen Hsamples bounding_box.
  destruct (write_ENVI_header_returns header_name default_z_value image georef w value)
    as (smallest & largest & _ & _ & Hrun); [done..|].
  eexists. exact Hrun.
Qed.

Lemma write_ENVI_header_map_info_witness :
  ∃ h : Header,
    write_ENVI_header "/data/dem.hdr" 0 flat_image example_georef example_world
    = Returned () (with_file example_world "/data/dem.hdr"
        (before_map_info h +:+
         line "map info = { Geographic Lat/Lon, 1.5, 1.5, 10.000000, 21.500000, 0.500000, -0.500000, D_MOON, units=Degrees}" +:+
         after_map_info h)).
Proof.
  destruct (write_ENVI_header_map_info
              "/data/dem.hdr" 0 flat_image example_georef example_world 5)
    as (h & Hrun).
  - reflexivity.
  - reflexivity.
  - cbv. lia.
  - exists h. exact Hrun.
Defined.

(** C4, as the code has it. Whenever the call returns (the channel kind
    has a code, the path opens and the image has a sample), the file that is
    written consists of, in this order: the line
    [ENVI], the description block (the fixed text, the text of the
    reference, the bounding box and the Z values, closed by a brace), the
    [samples], [lines] and [bands] lines, [header offset = 0], the map info
    line, [file type = ENVI Standard], the data-type code, [interleave = bsq],
    the byte order and an empty line; the interleave line does not depend on
    the inputs, and every field is there. *)
Theorem write_ENVI_header_layout {pixel_type} {PT : PixelType pixel_type}
    (header_name : string) (default_z_value : float)
    (image : ImageView pixel_type) (georef : GeoReference.t) (w : World) (value : Z) :
  vw_to_envi_channel_type channel_type = Some value →
  can_open w (c_str header_name) = true →
  has_samples image →
  ∃ smallest largest : pixel_type,
    pixels image !! min_element pixel_lt (pixels image) = Some smallest ∧
    pixels image !! max_element pixel_lt (pixels image) = Some largest ∧
    let h := header_of value default_z_value image georef (host w)
               (pixel_to_double smallest) (pixel_to_double largest) in
    write_ENVI_header header_name default_z_value image georef w
    = Returned () (with_file w (c_str header_name)
        (line "ENVI" +:+
         description_block h +:+
         samples_line h +:+
         lines_line h +:+
         bands_line h +:+
         line "header offset = 0" +:+
         map_info_line h +:+
         line "file type = ENVI Standard" +:+
         data_type_line h +:+
         line "interleave = bsq" +:+
         byte_order_line h +:+
         LF)).
Proof.
  intros Hvalue Hopen Hsamples.
  destruct (write_ENVI_header_returns header_name default_z_value image georef w value)
    as (smallest & largest & Hmin & Hmax & Hrun); [done..|].
  exists smallest, largest. split_and!; [done..|].
  cbv zeta. rewrite Hrun.
  apply (f_equal (λ text, Returned () (with_file w (c_str header_name) text))).
  unfold header_text, before_map_info, after_map_info.
  rewrite !append_assoc. reflexivity.
Qed.

Lemma write_ENVI_header_layout_witness :
  write_ENVI_header "/data/dem.hdr" 0 flat_image example_georef example_world
  = Returned () (with_file example_world "/data/dem.hdr" (header_text example_header)).
Proof.
  destruct (write_ENVI_header_layout
              "/data/dem.hdr" 0 flat_image example_georef example_world 5)
    as (smallest & largest & Hmin & Hmax & Hrun).
  - reflexivity.
  - reflexivity.
  - cbv. lia.
  - rewrite Hrun.
    injection Hmin as <-. injection Hmax as <-.
    reflexivity.
Defined.

(** The image without columns, written to a path that opens: the call does
    not return, so it does not leave the fields of a header in the file; its
    behaviour is undefined once the text up to the projection is written.
    The fields are not written for every input. *)
Lemma empty_image_header_incomplete :
  (cols empty_image = 0)%nat ∧
  can_open example_world "/data/dem.hdr" = true ∧
  (∃ w', write_ENVI_header "/data/dem.hdr" 0 empty_image example_georef example_world
         = UndefinedBehaviour PastTheEnd w') ∧
  ¬ (∃ w', write_ENVI_header "/data/dem.hdr" 0 empty_image example_georef example_world
           = Returned () w').
Proof.
  split_and!; [reflexivity|reflexivity| |].
  - eexists. vm_compute. reflexivity.
  - intros [w' Hrun]. vm_compute in Hrun. discriminate.
Qed.

(** The file of the example, as text. *)
Example example_header_text :
  header_text example_header =
"ENVI
description = { 
   -- Digital Elevation Map generated by the NASA Ames Stereo Pipeline --
   
   The Ames Stereo Pipeline generates 3D coordinates in a planetocentric 
   coordinate system with the origin at the planetary center of mass.
   Elevations are referenced relative to standards set by the International
   Astronomical Union (IAU)
   
   This DEM was generated using an area based correlation technique followed by several 
   several stages of outlier detection.  This produced a map of the disparities for each 
   pixel which was then interpolated (hole filled) using a 2D non-uniform b-spline fitting
   process.  You should find a interpolation map file included in this archive that shows
   which pixels represent interpolated data.
   
   Projection Information:
   -- Geospatial Reference Object --
   
   Bounding box:
     Minimum X (left)    = 10.000000
     Minimum Y (top)     = 20.000000
     Maximum X (right)   = 12.000000
     Maximum Y (bottom)  = 21.500000
     Minimum Z           = 7.000000
     Maximum Z           = 7.000000
     Default Z           = 0.000000
}
samples = 4
lines   = 3
bands   = 1
header offset = 0
map info = { Geographic Lat/Lon, 1.5, 1.5, 10.000000, 21.500000, 0.500000, -0.500000, D_MOON, units=Degrees}
file type = ENVI Standard
data type = 5
interleave = bsq
byte order = 0

".
Proof. vm_compute. reflexivity. Qed.

(** C5. The byte order field of the header that is written is the result of
    the probe on the two bytes of a [short] holding 1: it is 0 on a
    little-endian host and 1 on a big-endian host, whatever the image and
    the reference. *)
Theorem write_ENVI_header_byte_order {pixel_type} {PT : PixelType pixel_type}
    (header_name : string) (default_z_value : float)
    (image : ImageView pixel_type) (georef : GeoReference.t) (w : World) (value : Z) :
  vw_to_envi_channel_type channel_type = Some value →
  can_open w (c_str header_name) = true →
  has_samples image →
  ∃ h : Header,
    write_ENVI_header header_name default_z_value image georef w
    = Returned () (with_file w (c_str header_name)
        (before_map_info h +:+ map_info_line h +:+
         file_type_line +:+ data_type_line h +:+ interleave_line +:+
         line ("byte order = " +:+
               match host w with LittleEndian => "0" | BigEndian => "1" end) +:+
         LF)) ∧
    byte_order h
    = (if bool_decide (to_char 1 = nth 1 (short_bytes (host w) 1) 0) then 1 else 0).
Proof.
  intros Hvalue Hopen Hsamples.
  destruct (write_ENVI_header_returns header_name default_z_value image georef w value)
    as (smallest & largest & _ & _ & Hrun); [done..|].
  exists (header_of value default_z_value image georef (host w)
            (pixel_to_double smallest) (pixel_to_double largest)).
  split.
  - rewrite Hrun.
    apply (f_equal (λ text, Returned () (with_file w (c_str header_name) text))).
    unfold header_text, after_map_info, byte_order_line. cbn [byte_order header_of].
    destruct (host w); reflexivity.
  - cbn [byte_order header_of]. destruct (host w); reflexivity.
Qed.

Lemma write_ENVI_header_byte_order_witness :
  ∃ h : Header,
    write_ENVI_header "/data/dem.hdr" 0 flat_image example_georef
      (mkWorld ∅ (String.prefix "/data/") [] BigEndian)
    = Returned () (with_file (mkWorld ∅ (String.prefix "/data/") [] BigEndian) "/data/dem.hdr"
        (before_map_info h +:+ map_info_line h +:+
         file_type_line +:+ data_type_line h +:+ interleave_line +:+
         line "byte order = 1" +:+ LF)) ∧
    byte_order h = 1.
Proof.
  destruct (write_ENVI_header_byte_order
              "/data/dem.hdr" 0 flat_image example_georef
              (mkWorld ∅ (String.prefix "/data/") [] BigEndian) 5)
    as (h & Hrun & Horder).
  - reflexivity.
  - reflexivity.
  - cbv. lia.
  - exists h. split; [exact Hrun|exact Horder].
Defined.

(** C10. In the header that is written, the third and fourth values of the
    map info line are the numbers of the description block's Minimum X
    (left) and Maximum Y (bottom) lines: both come from the one bounding box
    that the reference gives for the column and row counts of the image. *)
Theorem write_ENVI_header_map_info_matches_bounding_box
    {pixel_type} {PT : PixelType pixel_type}
    (header_name : string) (default_z_value : float)
    (image : ImageView pixel_type) (georef : GeoReference.t) (w : World) (value : Z) :
  vw_to_envi_channel_type channel_type = Some value →
  can_open w (c_str header_name) = true →
  has_samples image →
  let bounding_box := GeoReference.bounding_box georef (cols image) (rows image) in
  ∃ h : Header,
    write_ENVI_header header_name default_z_value image georef w
    = Returned () (with_file w (c_str header_name) (header_text h)) ∧
    map_x h = minimum_x h ∧
    map_y h = maximum_y h ∧
    minimum_x h = Vector2.x (BBox2.min bounding_box) ∧
    maximum_y h = Vector2.y (BBox2.max bounding_box).
Proof.
  intros Hvalue Hopen Hsamples bounding_box.
  destruct (write_ENVI_header_returns header_name default_z_value image georef w value)
    as (smallest & largest & _ & _ & Hrun); [done..|].
  eexists. split; [exact Hrun|]. by split_and!.
Qed.

Lemma write_ENVI_header_map_info_matches_bounding_box_witness :
  ∃ h : Header,
    write_ENVI_header "/data/dem.hdr" 0 flat_image example_georef example_world
    = Returned () (with_file example_world "/data/dem.hdr" (header_text h)) ∧
    map_x h = minimum_x h ∧ map_y h = maximum_y h ∧
    printf_f (minimum_x h) = "10.000000" ∧ printf_f (maximum_y h) = "21.500000".
Proof.
  destruct (write_ENVI_header_map_info_matches_bounding_box
              "/data/dem.hdr" 0 flat_image example_georef example_world 5)
    as (h & Hrun & Hx & Hy & Hminx & Hmaxy).
  - reflexivity.
  - reflexivity.
  - cbv. lia.
  - exists h. split_and!; [exact Hrun|exact Hx|exact Hy|..].
    + rewrite Hminx. reflexivity.
    + rewrite Hmaxy. reflexivity.
Defined.

(** ** Failures *)

(** The image without columns has no sample, the file opens, and the call
    does not fail explicitly: the claim of an explicit error for every image
    with zero samples does not hold of the code. *)
Lemma zero_samples_no_explicit_error :
  (cols empty_image = 0)%nat ∧
  can_open example_world "/data/dem.hdr" = true ∧
  write_ENVI_header "/data/dem.hdr" 0 empty_image example_georef example_world
  = UndefinedBehaviour PastTheEnd
      (opened example_world "/data/dem.hdr" (preamble example_georef)) ∧
  ¬ fails_explicitly
      (write_ENVI_header "/data/dem.hdr" 0 empty_image example_georef example_world).
Proof.
  split_and!; [reflexivity| reflexivity | vm_compute; reflexivity |].
  intros (what & w' & Hthrown). vm_compute in Hthrown. discriminate.
Qed.

(** C6, as the code has it. For an image with zero columns or zero rows the
    function makes no check and raises no error: with the file open and the
    preamble written, it dereferences the iterator that [std::min_element]
    returns for the empty range, which is [end()], and its behaviour is
    undefined from there on. *)
Theorem write_ENVI_header_zero_samples {pixel_type} {PT : PixelType pixel_type}
    (header_name : string) (default_z_value : float)
    (image : ImageView pixel_type) (georef : GeoReference.t) (w : World) (value : Z) :
  vw_to_envi_channel_type channel_type = Some value →
  can_open w (c_str header_name) = true →
  (cols image = 0 ∨ rows image = 0)%nat →
  write_ENVI_header header_name default_z_value image georef w
  = UndefinedBehaviour PastTheEnd (opened w (c_str header_name) (preamble georef)) ∧
  ¬ fails_explicitly (write_ENVI_header header_name default_z_value image georef w).
Proof.
  intros Hvalue Hopen Hzero.
  assert (write_ENVI_header header_name default_z_value image georef w
          = UndefinedBehaviour PastTheEnd (opened w (c_str header_name) (preamble georef))) as Hrun.
  { unfold write_ENVI_header. rewrite Hvalue.
    apply write_ENVI_header_body_empty; [done|].
    apply pixels_empty. tauto. }
  split; [exact Hrun|]. apply write_ENVI_header_never_throws.
Qed.

Lemma write_ENVI_header_zero_samples_witness :
  write_ENVI_header "/data/dem.hdr" 0 empty_image example_georef example_world
  = UndefinedBehaviour PastTheEnd
      (opened example_world "/data/dem.hdr" (preamble example_georef)) ∧
  ¬ fails_explicitly
      (write_ENVI_header "/data/dem.hdr" 0 empty_image example_georef example_world).
Proof.
  apply (write_ENVI_header_zero_samples
           "/data/dem.hdr" 0 empty_image example_georef example_world 5).
  - reflexivity.
  - reflexivity.
  - left. reflexivity.
Defined.

(** C8. When the channel kind of the image has no entry in the table, the
    call is ill-formed: there is no execution, whatever the state of the
    files, so no file is created or written. *)
Theorem write_ENVI_header_unsupported_channel {pixel_type} {PT : PixelType pixel_type}
    (header_name : string) (default_z_value : float)
    (image : ImageView pixel_type) (georef : GeoReference.t) (w : World) :
  channel_type ∉ supported_channels →
  write_ENVI_header header_name default_z_value image georef w = IllFormed.
Proof.
  intros Hchannel. unfold write_ENVI_header.
  rewrite vw_to_envi_channel_type_supported in Hchannel.
  destruct (vw_to_envi_channel_type channel_type); [|reflexivity].
  destruct Hchannel. by eexists.
Qed.

Lemma write_ENVI_header_unsupported_channel_witness :
  write_ENVI_header (PT := int8_pixel) "/data/dem.hdr" 0 int8_image example_georef
    example_world
  = IllFormed.
Proof.
  apply (write_ENVI_header_unsupported_channel (PT := int8_pixel)).
  cbn. unfold supported_channels.
  intros Hin. repeat (apply elem_of_cons in Hin as [Heq|Hin]; [discriminate Heq|]).
  by apply elem_of_nil in Hin.
Defined.

(** A path that cannot be opened: the call neither fails explicitly nor
    leaves the stream functions alone, its first [fprintf] is given the null
    stream. *)
Lemma unopened_stream_written_through :
  can_open example_world "/missing/dem.hdr" = false ∧
  write_ENVI_header "/missing/dem.hdr" 0 flat_image example_georef example_world
  = UndefinedBehaviour NullStream example_world ∧
  ¬ fails_explicitly
      (write_ENVI_header "/missing/dem.hdr" 0 flat_image example_georef example_world).
Proof.
  split_and!; [reflexivity..|].
  intros (what & w' & Hthrown). vm_compute in Hthrown. discriminate.
Qed.

(** C9, as the code has it. When the destination opens (and the image has a
    sample), the call returns having created or overwritten the file at the
    given path and no other, and the stream it opened is closed again, by
    the [fclose] that ends the function. *)
Theorem write_ENVI_header_one_file {pixel_type} {PT : PixelType pixel_type}
    (header_name : string) (default_z_value : float)
    (image : ImageView pixel_type) (georef : GeoReference.t) (w : World) (value : Z) :
  vw_to_envi_channel_type channel_type = Some value →
  can_open w (c_str header_name) = true →
  has_samples image →
  ∃ (w' : World) (text : string),
    write_ENVI_header header_name default_z_value image georef w = Returned () w' ∧
    files w' !! c_str header_name = Some text ∧
    (∀ path, path ≠ c_str header_name → files w' !! path = files w !! path) ∧
    open_streams w' = open_streams w ∧
    can_open w' = can_open w.
Proof.
  intros Hvalue Hopen Hsamples.
  destruct (write_ENVI_header_returns header_name default_z_value image georef w value)
    as (smallest & largest & _ & _ & Hrun); [done..|].
  eexists _, _. split; [exact Hrun|]. cbn. split_and!; [|intros path Hpath|done..].
  - apply lookup_insert_eq.
  - by apply lookup_insert_ne.
Qed.

Lemma write_ENVI_header_one_file_witness :
  ∃ (w' : World) (text : string),
    write_ENVI_header "/data/dem.hdr" 0 flat_image example_georef example_world
    = Returned () w' ∧
    files w' !! "/data/dem.hdr" = Some text ∧
    (∀ path, path ≠ "/data/dem.hdr" → files w' !! path = files example_world !! path) ∧
    open_streams w' = open_streams example_world ∧
    can_open w' = can_open example_world.
Proof.
  apply (write_ENVI_header_one_file
           "/data/dem.hdr" 0 flat_image example_georef example_world 5).
  - reflexivity.
  - reflexivity.
  - cbv. lia.
Defined.

(** ** Determinism *)

Lemma pixels_ext {pixel_type} (image1 image2 : ImageView pixel_type) :
  cols image1 = cols image2 →
  rows image1 = rows image2 →
  planes image1 = planes image2 →
  (∀ c r p, (c < cols image1)%nat → (r < rows image1)%nat → (p < planes image1)%nat →
            pixel image1 c r p = pixel image2 c r p) →
  pixels image1 = pixels image2.
Proof.
  intros Hc Hr Hp Hpixel. unfold pixels. rewrite <- Hc, <- Hr, <- Hp.
  apply Forall_bind_ext, Forall_forall. intros p [_ Hp']%elem_of_seq.
  apply Forall_bind_ext, Forall_forall. intros r [_ Hr']%elem_of_seq.
  apply Forall_bind_ext, Forall_forall. intros c [_ Hc']%elem_of_seq.
  rewrite Hpixel; [done|lia..].
Qed.

(** C7. Two invocations with the same path, default Z value and reference,
    on images of the same dimensions and samples and on hosts of the same
    byte order, leave the same bytes in the file at the path, whatever the
    two states of the file system were: when the first returns, so does the
    second wherever the path opens, and the two files are equal. *)
Theorem write_ENVI_header_deterministic {pixel_type} {PT : PixelType pixel_type}
    (header_name : string) (default_z_value : float)
    (image1 image2 : ImageView pixel_type) (georef : GeoReference.t) (w1 w2 w1' : World) :
  cols image1 = cols image2 →
  rows image1 = rows image2 →
  planes image1 = planes image2 →
  (∀ c r p, (c < cols image1)%nat → (r < rows image1)%nat → (p < planes image1)%nat →
            pixel image1 c r p = pixel image2 c r p) →
  host w1 = host w2 →
  can_open w2 (c_str header_name) = true →
  write_ENVI_header header_name default_z_value image1 georef w1 = Returned () w1' →
  ∃ w2', write_ENVI_header header_name default_z_value image2 georef w2 = Returned () w2' ∧
         is_Some (files w1' !! c_str header_name) ∧
         files w2' !! c_str header_name = files w1' !! c_str header_name.
Proof.
  intros Hc Hr Hp Hpixel Hhost Hopen2 Hrun1.
  destruct (write_ENVI_header_returned_inv _ _ _ _ _ _ Hrun1)
    as ([value Hvalue] & Hopen1 & Hsamples1).
  assert (has_samples image2) as Hsamples2.
  { unfold has_samples in *. by rewrite <- Hc, <- Hr, <- Hp. }
  destruct (write_ENVI_header_returns header_name default_z_value image1 georef w1 value)
    as (smallest1 & largest1 & Hmin1 & Hmax1 & Hrun1'); [done..|].
  destruct (write_ENVI_header_returns header_name default_z_value image2 georef w2 value)
    as (smallest2 & largest2 & Hmin2 & Hmax2 & Hrun2); [done..|].
  rewrite Hrun1 in Hrun1'. injection Hrun1' as ->.
  rewrite <- (pixels_ext image1 image2) in Hmin2, Hmax2 by done.
  assert (smallest2 = smallest1) as -> by congruence.
  assert (largest2 = largest1) as -> by congruence.
  eexists. split; [exact Hrun2|]. cbn. rewrite !lookup_insert_eq.
  split; [by eexists|].
  unfold header_of. by rewrite Hc, Hr, Hp, Hhost.
Qed.

Lemma write_ENVI_header_deterministic_witness :
  ∃ w2',
    write_ENVI_header "/data/dem.hdr" 0
      (mkImageView 4 3 1 (λ c _ _, if (c <? 4)%nat then 7%float else 0%float))
      example_georef
      (mkWorld {["/data/dem.hdr" := "stale"; "/data/other" := "kept"]}
               (String.prefix "/data/") ["/data/other"] LittleEndian)
    = Returned () w2' ∧
    is_Some (files (with_file example_world "/data/dem.hdr" (header_text example_header))
               !! "/data/dem.hdr") ∧
    files w2' !! "/data/dem.hdr"
    = files (with_file example_world "/data/dem.hdr" (header_text example_header))
        !! "/data/dem.hdr".
Proof.
  apply (write_ENVI_header_deterministic "/data/dem.hdr" 0 flat_image
           (mkImageView 4 3 1 (λ c _ _, if (c <? 4)%nat then 7%float else 0%float))
           example_georef example_world).
  - reflexivity.
  - reflexivity.
  - reflexivity.
  - intros c r p Hc _ _.
    change (7%float = if (c <? 4)%nat then 7%float else 0%float).
    change (cols flat_image) with 4%nat in Hc.
    apply Nat.ltb_lt in Hc. by rewrite Hc.
  - reflexivity.
  - reflexivity.
  - vm_compute. reflexivity.
Defined.

(** * Further properties of [write_ENVI_header] *)

(** ** When the call completes *)

(** X1. The call returns exactly when the channel kind of the image has a
    data-type code, the path can be opened for writing and the image has a
    sample. *)
Theorem write_ENVI_header_returns_iff {pixel_type} {PT : PixelType pixel_type}
    (header_name : string) (default_z_value : float)
    (image : ImageView pixel_type) (georef : GeoReference.t) (w : World) :
  (∃ w', write_ENVI_header header_name default_z_value image georef w = Returned () w') ↔
  channel_type ∈ supported_channels ∧
  can_open w (c_str header_name) = true ∧
  has_samples image.
Proof.
  rewrite vw_to_envi_channel_type_supported. split.
  - intros [w' Hrun]. by eapply write_ENVI_header_returned_inv.
  - intros ([value Hvalue] & Hopen & Hsamples).
    destruct (write_ENVI_header_returns header_name default_z_value image georef w value)
      as (smallest & largest & _ & _ & Hrun); [done..|].
    by eexists.
Qed.

(** X2. When the path cannot be opened, the state of the files and streams
    is the one before the call at the point where the behaviour becomes
    undefined, the first [fprintf], which is given the null stream: nothing
    is created, truncated or written. *)
Theorem write_ENVI_header_unopened {pixel_type} {PT : PixelType pixel_type}
    (header_name : string) (default_z_value : float)
    (image : ImageView pixel_type) (georef : GeoReference.t) (w : World) :
  channel_type ∈ supported_channels →
  can_open w (c_str header_name) = false →
  write_ENVI_header header_name default_z_value image georef w
  = UndefinedBehaviour NullStream w.
Proof.
  intros [value Hvalue]%vw_to_envi_channel_type_supported Hopen.
  rewrite write_ENVI_header_outcome, Hvalue, Hopen. reflexivity.
Qed.

Lemma write_ENVI_header_unopened_witness :
  write_ENVI_header "/readonly/dem.hdr" 1 step_image example_georef example_world
  = UndefinedBehaviour NullStream example_world.
Proof.
  apply (write_ENVI_header_unopened "/readonly/dem.hdr" 1 step_image example_georef
           example_world).
  - cbn. unfold supported_channels. set_solver.
  - reflexivity.
Defined.

(** ** Successive calls *)

(** X3. A call that returns leaves nothing that a later call on the same
    path could see: the later call, whatever its image, reference and
    default value, has the outcome it would have had without the earlier
    one.  In particular the longer text of an earlier header never shows
    behind a shorter one, and writing the same header twice is writing it
    once. *)
Theorem write_ENVI_header_overwrites
    {pixel_type1} {PT1 : PixelType pixel_type1} {pixel_type2} {PT2 : PixelType pixel_type2}
    (header_name : string) (default_z_value1 default_z_value2 : float)
    (image1 : ImageView pixel_type1) (image2 : ImageView pixel_type2)
    (georef1 georef2 : GeoReference.t) (w w1 : World) :
  write_ENVI_header header_name default_z_value1 image1 georef1 w = Returned () w1 →
  write_ENVI_header header_name default_z_value2 image2 georef2 w1
  = write_ENVI_header header_name default_z_value2 image2 georef2 w.
Proof.
  intros Hrun1.
  destruct (write_ENVI_header_returned_inv _ _ _ _ _ _ Hrun1)
    as ([value1 Hvalue1] & Hopen & Hsamples1).
  destruct (write_ENVI_header_returns header_name default_z_value1 image1 georef1 w value1)
    as (smallest1 & largest1 & _ & _ & Hrun1'); [done..|].
  rewrite Hrun1 in Hrun1'. injection Hrun1' as ->.
  rewrite !write_ENVI_header_outcome.
  destruct (vw_to_envi_channel_type (@channel_type pixel_type2 PT2)) as [value2|]; [|done].
  cbn [can_open with_file host]. rewrite Hopen.
  unfold with_file, opened. cbn [files can_open open_streams host].
  repeat case_match; by rewrite insert_insert_eq.
Qed.

Lemma write_ENVI_header_overwrites_witness :
  write_ENVI_header "/data/dem.hdr" 1 step_image example_georef
    (with_file example_world "/data/dem.hdr" (header_text example_header))
  = write_ENVI_header "/data/dem.hdr" 1 step_image example_georef example_world.
Proof.
  apply (write_ENVI_header_overwrites "/data/dem.hdr" 0 1 flat_image step_image
           example_georef example_georef example_world).
  vm_compute. reflexivity.
Defined.

(** ** The default Z value *)

Lemma header_text_default_z (h : Header) :
  header_text h
  = before_default_z h +:+
    line ("     Default Z           = " +:+ printf_f (default_z h)) +:+
    after_default_z h.
Proof.
  unfold header_text, before_map_info, description_block, bounding_box_lines,
    before_default_z, after_default_z.
  rewrite !append_assoc. reflexivity.
Qed.

(** X5. The default Z value is only reported: the text before the Default Z
    line and the text after it are the same for every default value, and the
    line shows the value that the caller gave. *)
Theorem write_ENVI_header_default_z {pixel_type} {PT : PixelType pixel_type}
    (header_name : string) (image : ImageView pixel_type) (georef : GeoReference.t)
    (w : World) (value : Z) :
  vw_to_envi_channel_type channel_type = Some value →
  can_open w (c_str header_name) = true →
  has_samples image →
  ∃ before after : string, ∀ default_z_value : float,
    write_ENVI_header header_name default_z_value image georef w
    = Returned () (with_file w (c_str header_name)
        (before +:+
         line ("     Default Z           = " +:+ printf_f default_z_value) +:+
         after)).
Proof.
  intros Hvalue Hopen Hsamples.
  destruct (write_ENVI_header_returns header_name 0 image georef w value)
    as (smallest & largest & Hmin & Hmax & _); [done..|].
  set (h := header_of value 0 image georef (host w)
              (pixel_to_double smallest) (pixel_to_double largest)).
  exists (before_default_z h), (after_default_z h). intros default_z_value.
  rewrite write_ENVI_header_outcome, Hvalue, Hopen, Hmin, Hmax.
  by rewrite header_text_default_z.
Qed.

Lemma write_ENVI_header_default_z_witness :
  ∃ before after : string, ∀ default_z_value : float,
    write_ENVI_header "/data/dem.hdr" default_z_value flat_image example_georef example_world
    = Returned () (with_file example_world "/data/dem.hdr"
        (before +:+
         line ("     Default Z           = " +:+ printf_f default_z_value) +:+
         after)).
Proof.
  apply (write_ENVI_header_default_z "/data/dem.hdr" flat_image example_georef
           example_world 5).
  - reflexivity.
  - reflexivity.
  - cbv. lia.
Defined.

(** ** The Z range *)

(** X6. For an image whose samples are all the same value, Minimum Z and
    Maximum Z are both that value, whatever the dimensions. *)
Theorem write_ENVI_header_constant_image {pixel_type} {PT : PixelType pixel_type}
    (header_name : string) (default_z_value : float)
    (image : ImageView pixel_type) (georef : GeoReference.t) (w : World) (value : Z)
    (z : pixel_type) :
  vw_to_envi_channel_type channel_type = Some value →
  can_open w (c_str header_name) = true →
  has_samples image →
  (∀ c r p, (c < cols image)%nat → (r < rows image)%nat → (p < planes image)%nat →
            pixel image c r p = z) →
  ∃ h : Header,
    write_ENVI_header header_name default_z_value image georef w
    = Returned () (with_file w (c_str header_name) (header_text h)) ∧
    minimum_z h = pixel_to_double z ∧
    maximum_z h = pixel_to_double z.
Proof.
  intros Hvalue Hopen Hsamples Hconstant.
  destruct (write_ENVI_header_returns header_name default_z_value image georef w value)
    as (smallest & largest & Hmin & Hmax & Hrun); [done..|].
  eexists. split; [exact Hrun|]. cbn [minimum_z maximum_z header_of].
  apply list_elem_of_lookup_2, elem_of_pixels in Hmin as (c1 & r1 & p1 & (? & ? & ?) & ->).
  apply list_elem_of_lookup_2, elem_of_pixels in Hmax as (c2 & r2 & p2 & (? & ? & ?) & ->).
  by rewrite !Hconstant.
Qed.

Lemma write_ENVI_header_constant_image_witness :
  ∃ h : Header,
    write_ENVI_header "/data/dem.hdr" 0 flat_image example_georef example_world
    = Returned () (with_file example_world "/data/dem.hdr" (header_text h)) ∧
    minimum_z h = 7%float ∧
    maximum_z h = 7%float.
Proof.
  destruct (write_ENVI_header_constant_image "/data/dem.hdr" 0 flat_image example_georef
              example_world 5 7%float) as (h & Hrun & Hmin & Hmax).
  - reflexivity.
  - reflexivity.
  - cbv. lia.
  - reflexivity.
  - exists h. split_and!; [exact Hrun|exact Hmin|exact Hmax].
Defined.

(** X7. For an image of [double] samples none of which is NaN, the two
    doubles that the function hands to [%f] for the Minimum Z and Maximum Z
    lines bound every sample: the first is at most, the second at least, the
    sample at every column, row and plane. *)
Theorem write_ENVI_header_range_bounds
    (header_name : string) (default_z_value : float)
    (image : ImageView float) (georef : GeoReference.t) (w : World) :
  can_open w (c_str header_name) = true →
  has_samples image →
  (∀ c r p, (c < cols image)%nat → (r < rows image)%nat → (p < planes image)%nat →
            PrimFloat.is_nan (pixel image c r p) = false) →
  ∃ min_value max_value : float,
    pixels image !! min_element PrimFloat.ltb (pixels image) = Some min_value ∧
    pixels image !! max_element PrimFloat.ltb (pixels image) = Some max_value ∧
    write_ENVI_header header_name default_z_value image georef w
    = Returned () (with_file w (c_str header_name)
        (header_text (header_of 5 default_z_value image georef (host w)
                        min_value max_value))) ∧
    ∀ c r p, (c < cols image)%nat → (r < rows image)%nat → (p < planes image)%nat →
             (min_value <=? pixel image c r p)%float = true ∧
             (pixel image c r p <=? max_value)%float = true.
Proof.
  intros Hopen Hsamples Hnumbers.
  destruct (write_ENVI_header_returns header_name default_z_value image georef w 5)
    as (smallest & largest & Hmin & Hmax & Hrun); [done..|].
  exists smallest, largest. split_and!; [exact Hmin|exact Hmax|exact Hrun|].
  assert (∀ v, v ∈ pixels image → PrimFloat.is_nan v = false) as Hnumber.
  { intros v (c & r & p & (? & ? & ?) & ->)%elem_of_pixels. by apply Hnumbers. }
  apply pixels_nonempty in Hsamples.
  destruct (min_element_spec pixel_lt pixel_lt_irrefl pixel_lt_trans _ Hsamples)
    as (smallest' & Hmin' & Hleast).
  destruct (max_element_spec pixel_lt pixel_lt_irrefl pixel_lt_trans _ Hsamples)
    as (largest' & Hmax' & Hgreatest).
  assert (smallest' = smallest) as -> by congruence.
  assert (largest' = largest) as -> by congruence.
  intros c r p Hc Hr Hp.
  assert (pixel image c r p ∈ pixels image) as Hin.
  { apply elem_of_pixels. by exists c, r, p. }
  split; apply leb_of_not_ltb.
  - by apply Hnumber.
  - by eapply Hnumber, list_elem_of_lookup_2.
  - by apply Hleast.
  - by eapply Hnumber, list_elem_of_lookup_2.
  - by apply Hnumber.
  - by apply Hgreatest.
Qed.

Lemma write_ENVI_header_range_bounds_witness :
  ∃ min_value max_value : float,
    pixels step_image !! min_element PrimFloat.ltb (pixels step_image) = Some min_value ∧
    pixels step_image !! max_element PrimFloat.ltb (pixels step_image) = Some max_value ∧
    write_ENVI_header "/data/step.hdr" 1 step_image example_georef example_world
    = Returned () (with_file example_world "/data/step.hdr"
        (header_text (header_of 5 1 step_image example_georef LittleEndian
                        min_value max_value))) ∧
    ∀ c r p, (c < 2)%nat → (r < 2)%nat → (p < 1)%nat →
             (min_value <=? pixel step_image c r p)%float = true ∧
             (pixel step_image c r p <=? max_value)%float = true.
Proof.
  apply (write_ENVI_header_range_bounds "/data/step.hdr" 1 step_image example_georef
           example_world).
  - reflexivity.
  - cbv. lia.
  - intros c r p _ _ _. unfold step_image, pixel. by destruct (c <? 1)%nat.
Defined.

(** X8. For an image of [double] samples, the two doubles that the function
    hands to [%f] for the Minimum Z and Maximum Z lines are NaN exactly when
    the first sample, the one at column, row and plane 0, is NaN: a NaN there
    is never replaced, whatever the other samples are, and a NaN anywhere
    else is never chosen. *)
Theorem write_ENVI_header_nan
    (header_name : string) (default_z_value : float)
    (image : ImageView float) (georef : GeoReference.t) (w : World) :
  can_open w (c_str header_name) = true →
  has_samples image →
  ∃ min_value max_value : float,
    pixels image !! min_element PrimFloat.ltb (pixels image) = Some min_value ∧
    pixels image !! max_element PrimFloat.ltb (pixels image) = Some max_value ∧
    write_ENVI_header header_name default_z_value image georef w
    = Returned () (with_file w (c_str header_name)
        (header_text (header_of 5 default_z_value image georef (host w)
                        min_value max_value))) ∧
    PrimFloat.is_nan min_value = PrimFloat.is_nan (pixel image 0 0 0) ∧
    PrimFloat.is_nan max_value = PrimFloat.is_nan (pixel image 0 0 0).
Proof.
  intros Hopen Hsamples.
  destruct (write_ENVI_header_returns header_name default_z_value image georef w 5)
    as (smallest & largest & Hmin & Hmax & Hrun); [done..|].
  exists smallest, largest. split_and!; [exact Hmin|exact Hmax|exact Hrun|..];
    clear Hrun;
    destruct (pixels_first image Hsamples) as [rest Hpixels];
    rewrite Hpixels in Hmin, Hmax;
    cbn [min_element max_element pixel_lt float64_pixel] in Hmin, Hmax;
    destruct (PrimFloat.is_nan (pixel image 0 0 0)) eqn:Hfirst.
  - rewrite min_element_loop_stays in Hmin by (intros v; by apply ltb_nan_r).
    by injection Hmin as <-.
  - destruct (min_element_loop_chosen PrimFloat.ltb (λ v, PrimFloat.is_nan v = false)
                [pixel image 0 0 0] rest 1 0 (pixel image 0 0 0))
      as (m & Hm & Hnumber); [|done|done|lia|done|].
    { intros v u Hvu. by apply ltb_not_nan in Hvu as [? ?]. }
    cbn [app] in Hm. by assert (m = smallest) as -> by congruence.
  - rewrite max_element_loop_stays in Hmax by (intros v; by apply ltb_nan_l).
    by injection Hmax as <-.
  - destruct (max_element_loop_chosen PrimFloat.ltb (λ v, PrimFloat.is_nan v = false)
                [pixel image 0 0 0] rest 1 0 (pixel image 0 0 0))
      as (m & Hm & Hnumber); [|done|done|lia|done|].
    { intros u v Huv. by apply ltb_not_nan in Huv as [? ?]. }
    cbn [app] in Hm. by assert (m = largest) as -> by congruence.
Qed.

Lemma write_ENVI_header_nan_witness :
  ∃ min_value max_value : float,
    write_ENVI_header "/data/nan.hdr" 0 nan_first_image example_georef example_world
    = Returned () (with_file example_world "/data/nan.hdr"
        (header_text (header_of 5 0 nan_first_image example_georef LittleEndian
                        min_value max_value))) ∧
    PrimFloat.is_nan min_value = true ∧
    PrimFloat.is_nan max_value = true.
Proof.
  destruct (write_ENVI_header_nan "/data/nan.hdr" 0 nan_first_image example_georef
              example_world) as (min_value & max_value & _ & _ & Hrun & Hmin & Hmax).
  - reflexivity.
  - cbv. lia.
  - exists min_value, max_value. split_and!; [exact Hrun|exact Hmin|exact Hmax].
Defined.
